(** * jira-release-action: release-version synchronisation with the tracker

    A shallow embedding of schema.ts (the input schema), jira.ts (lookup,
    upsert and delete of a project version) and main.ts (the entry point
    [run], in the version that tags issues).

    Strings are sequences of code units; a [string] of this development
    holds code units below 256.  Time values are milliseconds since the
    epoch, as [Z].  Effects (log lines, the failure signal, tracker
    requests) are recorded in order in a trace by a small monad. *)

From Stdlib Require Import ZArith List String Ascii Bool Lia.
Import ListNotations.
Local Open Scope string_scope.
Local Open Scope Z_scope.

(** ** Strings of the JavaScript runtime *)

Module JsString.

(** WhiteSpace and LineTerminator code units below 256: TAB, LF, VT, FF,
    CR, SP and NBSP. *)
Definition isWhiteSpace (c : ascii) : bool :=
  let n := nat_of_ascii c in
  ((9 <=? n) && (n <=? 13) || (n =? 32) || (n =? 160))%nat.

Fixpoint trimStart (s : string) : string :=
  match s with
  | EmptyString => EmptyString
  | String c s' => if isWhiteSpace c then trimStart s' else s
  end.

(** [trimEnd] keeps a character when it is not white space or when some
    later character is kept. *)
Fixpoint trimEnd (s : string) : string :=
  match s with
  | EmptyString => EmptyString
  | String c s' =>
      match trimEnd s' with
      | EmptyString => if isWhiteSpace c then EmptyString else String c EmptyString
      | r => String c r
      end
  end.

Definition trim (s : string) : string := trimEnd (trimStart s).

(** [s.split(sep)] for a separator of one code unit, the only kind the
    sources use ([","] and ["T"]). *)
Fixpoint split (sep : ascii) (s : string) : list string :=
  match s with
  | EmptyString => [EmptyString]
  | String c s' =>
      if Ascii.eqb c sep then EmptyString :: split sep s'
      else match split sep s' with
           | [] => [String c EmptyString]
           | p :: ps => String c p :: ps
           end
  end.

(** Truthiness of a string: every string but the empty one. *)
Definition truthy (s : string) : bool :=
  match s with EmptyString => false | _ => true end.

(** Truthiness of [string | undefined]. *)
Definition truthy_opt (o : option string) : bool :=
  match o with Some s => truthy s | None => false end.


(** Whether the code unit [c] occurs in [s]. *)
Fixpoint occurs (c : ascii) (s : string) : bool :=
  match s with
  | EmptyString => false
  | String c' s' => Ascii.eqb c' c || occurs c s'
  end.

End JsString.

(** ** The Date object of the runtime (ECMAScript, Date objects) *)

Module JsDate.

Definition msPerDay : Z := 86400000.
Definition maxTime : Z := 8640000000000000.

(** A time value is valid when it survives TimeClip. *)
Definition validTime (t : Z) : bool := (- maxTime <=? t) && (t <=? maxTime).

Definition TimeClip (t : Z) : option Z := if validTime t then Some t else None.

Definition Day (t : Z) : Z := t / msPerDay.
Definition TimeWithinDay (t : Z) : Z := t mod msPerDay.

Definition DayFromYear (y : Z) : Z :=
  365 * (y - 1970) + (y - 1969) / 4 - (y - 1901) / 100 + (y - 1601) / 400.

Definition isLeap (y : Z) : bool :=
  (y mod 4 =? 0) && (negb (y mod 100 =? 0) || (y mod 400 =? 0)).

Definition DaysInYear (y : Z) : Z := if isLeap y then 366 else 365.

(** The year of day number [d]: the largest [y] with [DayFromYear y <= d],
    found from an estimate that is off by at most one. *)
Definition YearFromDay (d : Z) : Z :=
  let y := 1970 + (400 * d) / 146097 in
  if DayFromYear (y + 1) <=? d then y + 1
  else if d <? DayFromYear y then y - 1
  else y.

Definition YearFromTime (t : Z) : Z := YearFromDay (Day t).

Definition DayWithinYear (t : Z) : Z := Day t - DayFromYear (YearFromTime t).

Definition InLeapYear (t : Z) : Z := if isLeap (YearFromTime t) then 1 else 0.

(** Day number within the year at which month [m] (0 to 11) starts; 12 is
    the end of the year. *)
Definition monthStart (leap : Z) (m : Z) : Z :=
  match m with
  | 0 => 0 | 1 => 31 | 2 => 59 + leap | 3 => 90 + leap | 4 => 120 + leap
  | 5 => 151 + leap | 6 => 181 + leap | 7 => 212 + leap | 8 => 243 + leap
  | 9 => 273 + leap | 10 => 304 + leap | 11 => 334 + leap
  | _ => 365 + leap
  end.

Definition monthOfDayInYear (leap : Z) (n : Z) : Z :=
  if n <? 31 then 0
  else if n <? 59 + leap then 1
  else if n <? 90 + leap then 2
  else if n <? 120 + leap then 3
  else if n <? 151 + leap then 4
  else if n <? 181 + leap then 5
  else if n <? 212 + leap then 6
  else if n <? 243 + leap then 7
  else if n <? 273 + leap then 8
  else if n <? 304 + leap then 9
  else if n <? 334 + leap then 10
  else 11.

Definition MonthFromTime (t : Z) : Z :=
  monthOfDayInYear (InLeapYear t) (DayWithinYear t).

Definition DateFromTime (t : Z) : Z :=
  DayWithinYear t - monthStart (InLeapYear t) (MonthFromTime t) + 1.

Definition HourFromTime (t : Z) : Z := TimeWithinDay t / 3600000.
Definition MinFromTime (t : Z) : Z := TimeWithinDay t / 60000 mod 60.
Definition SecFromTime (t : Z) : Z := TimeWithinDay t / 1000 mod 60.
Definition msFromTime (t : Z) : Z := TimeWithinDay t mod 1000.

(** MakeDay for a month in 0..11: the day number of a calendar date. *)
Definition MakeDay (y m dt : Z) : Z :=
  DayFromYear y + monthStart (if isLeap y then 1 else 0) m + dt - 1.

Definition DaysInMonth (y m : Z) : Z :=
  let leap := if isLeap y then 1 else 0 in
  monthStart leap (m + 1) - monthStart leap m.

(** *** Decimal fields *)

Definition digitChar (v : Z) : ascii := ascii_of_nat (48 + Z.to_nat v).

Definition digitValue (c : ascii) : option Z :=
  let n := Z.of_nat (nat_of_ascii c) in
  if (48 <=? n) && (n <=? 57) then Some (n - 48) else None.

(** [decimal n v]: the [n] low decimal digits of [v], zero-padded. *)
Fixpoint decimal (n : nat) (v : Z) : string :=
  match n with
  | O => EmptyString
  | S k => String (digitChar (v / 10 ^ Z.of_nat k mod 10)) (decimal k v)
  end.

(** [digits n acc s]: read exactly [n] decimal digits off the front of [s]. *)
Fixpoint digits (n : nat) (acc : Z) (s : string) : option (Z * string) :=
  match n with
  | O => Some (acc, s)
  | S k =>
      match s with
      | String c s' =>
          match digitValue c with
          | Some v => digits k (acc * 10 + v) s'
          | None => None
          end
      | EmptyString => None
      end
  end.

Definition expect (c : ascii) (s : string) : option string :=
  match s with
  | String c' s' => if Ascii.eqb c' c then Some s' else None
  | EmptyString => None
  end.

(** *** Date.prototype.toISOString *)

(** Years 0 to 9999 take four digits, the others a sign and six. *)
Definition yearString (y : Z) : string :=
  if (0 <=? y) && (y <=? 9999) then decimal 4 y
  else if y <? 0 then String "-" (decimal 6 (- y))
  else String "+" (decimal 6 y).

Definition dateString (t : Z) : string :=
  yearString (YearFromTime t) ++ "-" ++ decimal 2 (MonthFromTime t + 1)
    ++ "-" ++ decimal 2 (DateFromTime t).

Definition timeString (t : Z) : string :=
  decimal 2 (HourFromTime t) ++ ":" ++ decimal 2 (MinFromTime t) ++ ":"
    ++ decimal 2 (SecFromTime t) ++ "." ++ decimal 3 (msFromTime t) ++ "Z".

(** *** Date.parse *)

Definition parseYear (s : string) : option (Z * string) :=
  match s with
  | String "+" s' => digits 6 0 s'
  | String "-" s' =>
      match digits 6 0 s' with
      | Some (y, r) => if y =? 0 then None else Some (- y, r)
      | None => None
      end
  | _ => digits 4 0 s
  end.

(** The date-only forms [YYYY-MM-DD] and [+-YYYYYY-MM-DD] of the Date Time
    String Format, which every engine reads as midnight UTC.  [None] means
    the string is not of that form (or names no calendar day), not that it
    is invalid: see [Date_parse]. *)
Definition parseISODate (s : string) : option Z :=
  match parseYear s with
  | Some (y, s1) =>
      match expect "-" s1 with
      | Some s2 =>
          match digits 2 0 s2 with
          | Some (m, s3) =>
              match expect "-" s3 with
              | Some s4 =>
                  match digits 2 0 s4 with
                  | Some (d, EmptyString) =>
                      if (1 <=? m) && (m <=? 12) && (1 <=? d)
                         && (d <=? DaysInMonth y (m - 1))
                      then Some (MakeDay y (m - 1) d * msPerDay)
                      else None
                  | _ => None
                  end
              | None => None
              end
          | None => None
          end
      | None => None
      end
  | None => None
  end.

(** [Date.parse]: the date-only ISO forms are fixed by the language; for
    every other string the result is the engine's own ([engine], with
    [None] for NaN).  The constructor clips the time value. *)
Definition Date_parse (engine : string -> option Z) (s : string) : option Z :=
  match parseISODate s with
  | Some t => match TimeClip t with
              | Some t' => Some t'
              | None => match engine s with Some u => TimeClip u | None => None end
              end
  | None => match engine s with Some u => TimeClip u | None => None end
  end.

End JsDate.

Import JsString JsDate.

(** ** Completions and thrown values *)

(** What a [throw] carries.  [ErrorObject] stands for the instances of
    [Error] (with [RangeError], [TypeError] and valibot's [ValiError]) and
    [OtherValue] for every other value a library may throw, both as long as
    [JSON.stringify] can serialise the value.  The two other constructors
    are the values on which [JSON.stringify] throws (a cyclic structure, a
    BigInt): an instance of [Error] or not, with the message [why] of the
    TypeError it throws. *)
Inductive Thrown : Type :=
| ErrorObject (name message : string)
| OtherValue (description : string)
| UnserialisableError (name message why : string)
| UnserialisableValue (description why : string).

(** [error instanceof Error], with [error.message]. *)
Definition errorMessage (e : Thrown) : option string :=
  match e with
  | ErrorObject _ message | UnserialisableError _ message _ => Some message
  | OtherValue _ | UnserialisableValue _ _ => None
  end.

Definition serialisable (e : Thrown) : bool :=
  match e with
  | ErrorObject _ _ | OtherValue _ => true
  | UnserialisableError _ _ _ | UnserialisableValue _ _ => false
  end.

Inductive Completion (A : Type) : Type :=
| Normal (a : A)
| Throw (e : Thrown).
Arguments Normal {A} a.
Arguments Throw {A} e.

(** A Date object is its time value; [None] is NaN, the invalid date. *)
Definition DateObject : Type := option Z.

Definition getTime (d : DateObject) : option Z := d.

Definition isNaN (v : option Z) : bool :=
  match v with Some _ => false | None => true end.

Definition toISOString (d : DateObject) : Completion string :=
  match d with
  | Some t => Normal (dateString t ++ "T" ++ timeString t)
  | None => Throw (ErrorObject "RangeError" "Invalid time value")
  end.

(** ** Data of the tracker client (jira.js models, the fields in use) *)

Record Version : Type := {
  v_id : option string;
  v_name : option string;
  v_description : option string;
  v_released : option bool;
  v_releaseDate : option string;
  v_archived : option bool
}.

Record PageBeanVersion : Type := { values : option (list Version) }.

Record Project : Type := { project_id : string }.

Record Client : Type := {
  host : string;
  auth_email : string;
  auth_apiToken : string
}.

(** [ProjectVersionUpsertParams] of jira.ts; an optional field that is
    [undefined] is [None]. *)
Record ProjectVersionUpsertParams : Type := {
  p_name : string;
  p_description : option string;
  p_released : bool;
  p_releaseDate : option string;
  p_archived : bool
}.

Definition set_releaseDate (p : ProjectVersionUpsertParams) (d : option string)
  : ProjectVersionUpsertParams :=
  {| p_name := p_name p; p_description := p_description p;
     p_released := p_released p; p_releaseDate := d;
     p_archived := p_archived p |}.

(** The [inputs] object of main.ts; validation returns the same shape. *)
Record Inputs : Type := {
  email : string;
  api_token : string;
  subdomain : string;
  jira_project : string;
  release_name : string;
  operation : string;
  tickets : string;
  dry_run : bool;
  release_description : string;
  release_released : bool;
  release_release_date : string;
  release_archived : bool
}.

(** ** Observable effects *)

(** The requests to the tracker, named after the client methods.  The last
    one is the request of the issue tagger, see [setVersionOnIssues]. *)
Inductive Request : Type :=
| GetProjectVersionsPaginated (projectIdOrKey query : string)
| GetProject (projectIdOrKey : string)
| CreateVersion (p : ProjectVersionUpsertParams) (projectId : string)
| UpdateVersion (p : ProjectVersionUpsertParams) (versionId : string)
| DeleteAndReplaceVersion (versionId : string)
| SetFixVersion (issueIdOrKey : string) (versionId : option string).

(** What [JSON.stringify] is applied to. *)
Inductive Dumped : Type :=
| DInputs (i : Inputs)
| DPage (p : PageBeanVersion)
| DVersion (v : Version)
| DProject (p : Project)
| DParams (p : ProjectVersionUpsertParams)
| DThrown (e : Thrown).

Inductive Message : Type :=
| Text (s : string)
| Json (d : Dumped).

(** [JSON.stringify(error, null, 2)] in the catch of [run]: the text of the
    value, or the TypeError on a value that has none. *)
Definition JSON_stringify_thrown (e : Thrown) : Completion Message :=
  match e with
  | ErrorObject _ _ | OtherValue _ => Normal (Json (DThrown e))
  | UnserialisableError _ _ why | UnserialisableValue _ why =>
      Throw (ErrorObject "TypeError" why)
  end.

Inductive Event : Type :=
| Info (m : Message)
| Debug (m : Message)
| SetFailed (message : string)
| Sent (c : Client) (r : Request).

Definition requests (tr : list Event) : list Request :=
  flat_map (fun e => match e with Sent _ r => [r] | _ => [] end) tr.

Definition isTagRequest (r : Request) : bool :=
  match r with SetFixVersion _ _ => true | _ => false end.

(** The version parameters a create or update request carries. *)
Definition payload (r : Request) : option ProjectVersionUpsertParams :=
  match r with
  | CreateVersion p _ | UpdateVersion p _ => Some p
  | _ => None
  end.

(** The [Version3Client] that [createJiraClient] builds. *)
Definition jiraClient (email apiToken subdomain : string) : Client :=
  let host := "https://" ++ subdomain ++ ".atlassian.net" in
  {| host := host; auth_email := email; auth_apiToken := apiToken |}.

Definition cbind {A B} (c : Completion A) (k : A -> Completion B) : Completion B :=
  match c with
  | Normal a => k a
  | Throw e => Throw e
  end.

Notation "x <~ c1 ;; c2" := (cbind c1 (fun x => c2))
  (at level 61, c1 at next level, right associativity).

(** The events of a lookup, of an upsert and of a delete. *)
Definition lookupEvent (e : Event) : bool :=
  match e with
  | Info _ | Debug _ => true
  | Sent _ (GetProjectVersionsPaginated _ _) => true
  | _ => false
  end.

Definition upsertEvent (e : Event) : bool :=
  match e with
  | Info _ | Debug _ => true
  | Sent _ (GetProjectVersionsPaginated _ _) | Sent _ (GetProject _)
  | Sent _ (CreateVersion _ _) | Sent _ (UpdateVersion _ _) => true
  | _ => false
  end.

Definition tagRequests (tr : list Event) : list Request :=
  filter isTagRequest (requests tr).

Definition upsertPayloads (tr : list Event) : list ProjectVersionUpsertParams :=
  flat_map (fun r => match payload r with Some p => [p] | None => [] end)
    (requests tr).

Definition isSetFailed (e : Event) : bool :=
  match e with SetFailed _ => true | _ => false end.

(** [@actions/core]: how the runner answers the reads of the inputs. *)
Record ActionsCore : Type := {
  getInput : string -> bool -> Completion string;
  getBooleanInput : string -> bool -> Completion bool
}.

(** The tracker: a state of its own, and an answer to every request, which
    is a value or a throw, and a next state. *)
Record Tracker (S : Type) : Type := {
  getProjectVersionsPaginated :
    Client -> string -> string -> S -> Completion PageBeanVersion * S;
  getProject : Client -> string -> S -> Completion Project * S;
  createVersion :
    Client -> ProjectVersionUpsertParams -> string -> S -> Completion Version * S;
  updateVersion :
    Client -> ProjectVersionUpsertParams -> string -> S -> Completion Version * S;
  deleteAndReplaceVersion : Client -> string -> S -> Completion unit * S;
  setFixVersion : Client -> string -> option string -> S -> Completion unit * S
}.
Arguments getProjectVersionsPaginated {S} _ _ _ _ _.
Arguments getProject {S} _ _ _ _.
Arguments createVersion {S} _ _ _ _ _.
Arguments updateVersion {S} _ _ _ _ _.
Arguments deleteAndReplaceVersion {S} _ _ _ _.
Arguments setFixVersion {S} _ _ _ _ _.

(** ** The action *)

Section Action.

Context {S : Type}.

Variable tracker : Tracker S.
Variable core : ActionsCore.

(** What the engine's [Date.parse] makes of a string outside the ISO
    date-only forms. *)
Variable engine : string -> option Z.

(** The time value read by [new Date()]; the action reads the clock at
    most once in a run. *)
Variable now : Z.

(** The text valibot gives the issue of a picklist mismatch. *)
Variable picklistMessage : string -> string.

Definition Date_new (s : string) : DateObject := Date_parse engine s.

Definition Date_now : DateObject := TimeClip now.

(** [d.toISOString().split("T")[0]], the expression every normalisation
    of a release date ends in. *)
Definition isoDay (d : DateObject) : Completion (option string) :=
  match toISOString d with
  | Normal iso => Normal (hd_error (split "T" iso))
  | Throw e => Throw e
  end.

(** *** The monad of the action: trace, tracker state, completion *)

Definition M (A : Type) : Type := S -> list Event * S * Completion A.

Definition ret {A} (a : A) : M A := fun s => ([], s, Normal a).

Definition throw {A} (e : Thrown) : M A := fun s => ([], s, Throw e).

Definition bind {A B} (m : M A) (k : A -> M B) : M B :=
  fun s =>
    match m s with
    | (tr, s1, Normal a) =>
        match k a s1 with
        | (tr', s2, r) => ((tr ++ tr')%list, s2, r)
        end
    | (tr, s1, Throw e) => (tr, s1, Throw e)
    end.

Definition lift {A} (c : Completion A) : M A := fun s => ([], s, c).

Definition emit (e : Event) : M unit := fun s => ([e], s, Normal tt).

(** A request: recorded, then answered by the tracker. *)
Definition send {A} (c : Client) (r : Request)
    (answer : S -> Completion A * S) : M A :=
  fun s => match answer s with (a, s') => ([Sent c r], s', a) end.

(** [try { m } catch (error) { h error }]. *)
Definition try_catch {A} (m : M A) (h : Thrown -> M A) : M A :=
  fun s =>
    match m s with
    | (tr, s1, Normal a) => (tr, s1, Normal a)
    | (tr, s1, Throw e) =>
        match h e s1 with
        | (tr', s2, r) => ((tr ++ tr')%list, s2, r)
        end
    end.

Local Notation "x <- c1 ;; c2" := (bind c1 (fun x => c2))
  (at level 61, c1 at next level, right associativity).
Local Notation "c1 ;; c2" := (bind c1 (fun _ => c2))
  (at level 61, right associativity).

Definition core_info (m : Message) : M unit := emit (Info m).
Definition core_debug (m : Message) : M unit := emit (Debug m).
Definition core_setFailed (message : string) : M unit := emit (SetFailed message).

(** *** schema.ts *)

Definition picklist : list string := ["create_or_update"; "delete"].

Definition inPicklist (s : string) : bool := existsb (String.eqb s) picklist.

(** The [v.check] of [InputSchema]. *)
Definition releaseDateCheck (input : Inputs) : bool :=
  if negb (String.eqb (trim (release_release_date input)) "") then
    let date := Date_new (release_release_date input) in
    negb (isNaN (getTime date))
  else true.

(** [v.parse(InputSchema, inputs)].  The fields already have their types;
    the pipe runs the check only on an object that passed the picklist. *)
Definition v_parse (inputs : Inputs) : Completion Inputs :=
  if inPicklist (operation inputs) then
    if releaseDateCheck inputs then Normal inputs
    else Throw (ErrorObject "ValiError" "Release date must be a valid date.")
  else Throw (ErrorObject "ValiError" (picklistMessage (operation inputs))).

(** *** jira.ts *)

Definition createJiraClient (email apiToken subdomain : string) : M Client :=
  ret (jiraClient email apiToken subdomain).

Definition nameIs (name : string) (v : Version) : bool :=
  match v_name v with
  | Some n => String.eqb n name
  | None => false
  end.

(** [versions.values?.find((v) => v.name === name) || null]. *)
Definition findByName (name : string) (versions : PageBeanVersion)
    : option Version :=
  match values versions with
  | Some vs => find (nameIs name) vs
  | None => None
  end.

Definition getProjectVersionByName (client : Client) (projectKey name : string)
    : M (option Version) :=
  core_info (Text ("Getting version " ++ name ++ "...")) ;;
  versions <- send client (GetProjectVersionsPaginated projectKey name)
                (getProjectVersionsPaginated tracker client projectKey name) ;;
  core_debug (Json (DPage versions)) ;;
  ret (findByName name versions).

Definition deleteProjectVersionByName (client : Client)
    (projectKey name : string) : M unit :=
  version <- getProjectVersionByName client projectKey name ;;
  match version with
  | Some v =>
      match v_id v with
      | Some i =>
          if truthy i then
            core_info (Text ("Deleting version " ++ name ++ "...")) ;;
            core_debug (Json (DVersion v)) ;;
            send client (DeleteAndReplaceVersion i)
              (deleteAndReplaceVersion tracker client i)
          else throw (ErrorObject "Error" ("Version " ++ name ++ " not found"))
      | None => throw (ErrorObject "Error" ("Version " ++ name ++ " not found"))
      end
  | None => throw (ErrorObject "Error" ("Version " ++ name ++ " not found"))
  end.

Definition getProjectId (client : Client) (projectKey : string) : M string :=
  project <- send client (GetProject projectKey)
               (getProject tracker client projectKey) ;;
  core_debug (Json (DProject project)) ;;
  ret (project_id project).

(** [prepareUpsertParams] assigns to [params.releaseDate] twice and then
    builds the object it returns; its callers do not read [params] again,
    so only the returned object is kept here. *)
Definition prepareUpsertParams (params : ProjectVersionUpsertParams)
    : Completion ProjectVersionUpsertParams :=
  let stamped : Completion (option string) :=
    if p_released params && negb (truthy_opt (p_releaseDate params)) then
      isoDay Date_now
    else if negb (p_released params) then Normal None
    else Normal (p_releaseDate params) in
  match stamped with
  | Throw e => Throw e
  | Normal d1 =>
      let formatted : Completion (option string) :=
        match d1 with
        | Some s => if truthy s then isoDay (Date_new s) else Normal d1
        | None => Normal d1
        end in
      match formatted with
      | Throw e => Throw e
      | Normal d2 =>
          let final : Completion (option string) :=
            match d2 with
            | Some s => if truthy s then isoDay (Date_new s) else Normal None
            | None => Normal None
            end in
          match final with
          | Throw e => Throw e
          | Normal d3 => Normal (set_releaseDate params d3)
          end
      end
  end.

Definition createProjectVersion (client : Client) (projectKey : string)
    (params : ProjectVersionUpsertParams) : M Version :=
  projectId <- getProjectId client projectKey ;;
  preparedParams <- lift (prepareUpsertParams params) ;;
  core_info (Text ("Creating project version " ++ p_name preparedParams ++ "...")) ;;
  core_debug (Json (DParams preparedParams)) ;;
  send client (CreateVersion preparedParams projectId)
    (createVersion tracker client preparedParams projectId).

Definition updateProjectVersion (client : Client) (versionId : string)
    (params : ProjectVersionUpsertParams) : M Version :=
  preparedParams <- lift (prepareUpsertParams params) ;;
  core_info (Text ("Updating project version " ++ p_name preparedParams ++ "...")) ;;
  core_debug (Json (DParams preparedParams)) ;;
  send client (UpdateVersion preparedParams versionId)
    (updateVersion tracker client preparedParams versionId).

(** The first statement of [upsertProjectVersion]. *)
Definition normalizeReleaseDate (d : option string) : Completion (option string) :=
  match d with
  | Some s => if truthy s then isoDay (Date_new s) else Normal None
  | None => Normal None
  end.

Definition upsertProjectVersion (client : Client) (projectKey : string)
    (params : ProjectVersionUpsertParams) : M Version :=
  releaseDate <- lift (normalizeReleaseDate (p_releaseDate params)) ;;
  let params := set_releaseDate params releaseDate in
  version <- getProjectVersionByName client projectKey (p_name params) ;;
  match version with
  | Some v =>
      match v_id v with
      | Some i =>
          if truthy i then updateProjectVersion client i params
          else createProjectVersion client projectKey params
      | None => createProjectVersion client projectKey params
      end
  | None => createProjectVersion client projectKey params
  end.

(** Modelled from the spec: [setVersionOnIssues], which main.ts imports
    from jira.ts and whose body is not among the sources.  Section 4.5:
    one set-fix-version request per issue key, issued in sequence; the
    first failure aborts the remaining requests and propagates; an empty
    list is a no-op. *)
Fixpoint setVersionOnIssues (client : Client) (versionId : option string)
    (issueIdsOrKeys : list string) : M unit :=
  match issueIdsOrKeys with
  | [] => ret tt
  | k :: ks =>
      send client (SetFixVersion k versionId)
        (setFixVersion tracker client k versionId) ;;
      setVersionOnIssues client versionId ks
  end.

(** *** main.ts *)

(** The reads of the inputs leave no trace; the first that throws ends
    them. *)
Definition readInputs : Completion Inputs :=
  email <~ getInput core "email" true ;;
  api_token <~ getInput core "api_token" true ;;
  subdomain <~ getInput core "subdomain" true ;;
  jira_project <~ getInput core "jira_project" true ;;
  release_name <~ getInput core "release_name" true ;;
  operation <~ getInput core "operation" true ;;
  tickets <~ getInput core "tickets" false ;;
  dry_run <~ getBooleanInput core "dry_run" false ;;
  release_description <~ getInput core "release_description" false ;;
  release_released <~ getBooleanInput core "release_released" false ;;
  release_release_date <~ getInput core "release_release_date" false ;;
  release_archived <~ getBooleanInput core "release_archived" false ;;
  Normal {| email := email; api_token := api_token; subdomain := subdomain;
            jira_project := jira_project; release_name := release_name;
            operation := operation; tickets := tickets; dry_run := dry_run;
            release_description := release_description;
            release_released := release_released;
            release_release_date := release_release_date;
            release_archived := release_archived |}.

(** The object literal [run] passes to [upsertProjectVersion]. *)
Definition versionParams (input : Inputs) : ProjectVersionUpsertParams :=
  {| p_name := release_name input;
     p_description := Some (release_description input);
     p_released := release_released input;
     p_releaseDate :=
       if truthy (release_release_date input)
       then Some (release_release_date input) else None;
     p_archived := release_archived input |}.

(** The [create_or_update] branch of [run]. *)
Definition createOrUpdate (client : Client) (input : Inputs) : M unit :=
  version <- upsertProjectVersion client (jira_project input)
               (versionParams input) ;;
  if truthy (tickets input) then
    let issueIdsOrKeys := map trim (split "," (tickets input)) in
    setVersionOnIssues client (v_id version) issueIdsOrKeys
  else ret tt.

(** The body of the [try] of [run], after the inputs are read. *)
Definition perform (inputs : Inputs) : M unit :=
  input <- lift (v_parse inputs) ;;
  if dry_run input then
    core_info (Text "Dry run enabled, dumping config:") ;;
    core_info (Json (DInputs input))
  else
    core_info (Text ("Performing release operation " ++ operation input
                       ++ " on project " ++ jira_project input
                       ++ " for release " ++ release_name input ++ "...")) ;;
    core_debug (Json (DInputs input)) ;;
    client <- createJiraClient (email input) (api_token input) (subdomain input) ;;
    if String.eqb (operation input) "create_or_update" then
      createOrUpdate client input
    else if String.eqb (operation input) "delete" then
      deleteProjectVersionByName client (jira_project input) (release_name input)
    else ret tt.

(** The [try] block of [run]. *)
Definition attempt : M unit :=
  inputs <- lift readInputs ;; perform inputs.

Definition run : M unit :=
  try_catch
    attempt
    (fun error =>
       text <- lift (JSON_stringify_thrown error) ;;
       core_debug text ;;
       match errorMessage error with
       | Some message => core_setFailed message
       | None => ret tt
       end).

(** Every event of every run of [m] satisfies [P]. *)
Definition emits {A} (P : Event -> Prop) (m : M A) : Prop :=
  forall s tr s' r, m s = (tr, s', r) -> Forall P tr.

End Action.

(** ** The entry point before issue tagging *)

(** The earlier main.ts: the same [run], without the issue tagger and
    without the debug line of the catch. *)
Module Earlier.

Section Action.

Context {S : Type}.
Variable tracker : Tracker S.
Variable core : ActionsCore.
Variable engine : string -> option Z.
Variable now : Z.
Variable picklistMessage : string -> string.

Definition perform (inputs : Inputs) : M unit :=
  bind (lift (v_parse engine picklistMessage inputs)) (fun input =>
  if dry_run input then
    bind (core_info (Text "Dry run enabled, dumping config:")) (fun _ =>
    core_info (Json (DInputs input)))
  else
    bind (core_info (Text ("Performing release operation " ++ operation input
                             ++ " on project " ++ jira_project input
                             ++ " for release " ++ release_name input ++ "...")))
      (fun _ =>
    bind (core_debug (Json (DInputs input))) (fun _ =>
    bind (createJiraClient (email input) (api_token input) (subdomain input))
      (fun client =>
    if String.eqb (operation input) "create_or_update" then
      bind (upsertProjectVersion tracker engine now client (jira_project input)
              (versionParams input)) (fun _ => ret tt)
    else if String.eqb (operation input) "delete" then
      deleteProjectVersionByName tracker client (jira_project input)
        (release_name input)
    else ret tt)))).

Definition attempt : M unit :=
  bind (lift (readInputs core)) perform.

Definition run : M unit :=
  try_catch attempt
    (fun error =>
       match errorMessage error with
       | Some message => core_setFailed message
       | None => ret tt
       end).

End Action.

End Earlier.

(** ** Vocabulary of the statements *)

(** The identifier the callers of the lookup go by: [version?.id] when it
    is truthy. *)
Definition usableId (found : option Version) : option string :=
  match found with
  | Some v =>
      match v_id v with
      | Some i => if truthy i then Some i else None
      | None => None
      end
  | None => None
  end.

(** A log line, or a request sent through [client]. *)
Definition sentThrough (client : Client) (e : Event) : Prop :=
  match e with
  | Sent c _ => c = client
  | _ => True
  end.

(** The requests of a trace that are not tagging requests. *)
Definition otherRequests (tr : list Event) : list Request :=
  filter (fun q => negb (isTagRequest q)) (requests tr).

Definition isLookupOrDelete (q : Request) : bool :=
  match q with
  | GetProjectVersionsPaginated _ _ | DeleteAndReplaceVersion _ => true
  | _ => false
  end.

(** ** A tracker in memory and a runner, to run the action on *)

(** The tracker keeps the versions of one project.  Its name filter lets
    every version through, tagging an issue listed in [missing] fails, and
    every request fails with a thrown plain object once [down] is set. *)
Record MemTracker : Type := {
  versions : list Version;
  missing : list string;
  down : bool
}.

Definition withVersions (st : MemTracker) (vs : list Version) : MemTracker :=
  {| versions := vs; missing := missing st; down := down st |}.

Definition answer {A} (st : MemTracker) (r : Completion A * MemTracker)
  : Completion A * MemTracker :=
  if down st then (Throw (OtherValue "status 401"), st) else r.

Definition versionOf (i : string) (p : ProjectVersionUpsertParams) : Version :=
  {| v_id := Some i; v_name := Some (p_name p);
     v_description := p_description p; v_released := Some (p_released p);
     v_releaseDate := p_releaseDate p; v_archived := Some (p_archived p) |}.

Definition hasId (i : string) (v : Version) : bool :=
  match v_id v with Some j => String.eqb j i | None => false end.

Definition memTracker : Tracker MemTracker :=
  {| getProjectVersionsPaginated := fun _ _ _ st =>
       answer st (Normal {| values := Some (versions st) |}, st);
     getProject := fun _ _ st =>
       answer st (Normal {| project_id := "10000" |}, st);
     createVersion := fun _ p _ st =>
       let v := versionOf (decimal 5 (10001 + Z.of_nat (List.length (versions st)))) p in
       answer st (Normal v, withVersions st (versions st ++ [v])%list);
     updateVersion := fun _ p i st =>
       let v := versionOf i p in
       answer st
         (Normal v,
          withVersions st (map (fun u => if hasId i u then v else u) (versions st)));
     deleteAndReplaceVersion := fun _ i st =>
       answer st
         (Normal tt,
          withVersions st (filter (fun u => negb (hasId i u)) (versions st)));
     setFixVersion := fun _ k _ st =>
       answer st
         (if existsb (String.eqb k) (missing st)
          then Throw (ErrorObject "Error" "Issue does not exist")
          else Normal tt, st) |}.

(** A runner that hands out the fields of [cfg], each text trimmed as
    [core.getInput] trims it when [trimWhitespace] is not switched off. *)
Definition coreOf (cfg : Inputs) : ActionsCore :=
  {| getInput := fun name _ =>
       Normal (trim
                 (if String.eqb name "email" then email cfg
                  else if String.eqb name "api_token" then api_token cfg
                  else if String.eqb name "subdomain" then subdomain cfg
                  else if String.eqb name "jira_project" then jira_project cfg
                  else if String.eqb name "release_name" then release_name cfg
                  else if String.eqb name "operation" then operation cfg
                  else if String.eqb name "tickets" then tickets cfg
                  else if String.eqb name "release_description"
                       then release_description cfg
                  else release_release_date cfg));
     getBooleanInput := fun name _ =>
       Normal (if String.eqb name "dry_run" then dry_run cfg
               else if String.eqb name "release_released" then release_released cfg
               else release_archived cfg) |}.

(** An engine that reads nothing but the ISO date-only forms. *)
Definition isoOnly : string -> option Z := fun _ => None.

Definition plainMessage : string -> string :=
  fun received => "Invalid type: received " ++ received.

Definition sampleConfig : Inputs :=
  {| email := "ci@example.com"; api_token := "token"; subdomain := "acme";
     jira_project := "AB"; release_name := "v1.2.0";
     operation := "create_or_update"; tickets := "AB-1, AB-2";
     dry_run := false; release_description := "Second minor release";
     release_released := true; release_release_date := "";
     release_archived := false |}.

Definition sampleClient : Client :=
  {| host := "https://acme.atlassian.net"; auth_email := "ci@example.com";
     auth_apiToken := "token" |}.

Definition sampleVersion (i n : string) : Version :=
  {| v_id := Some i; v_name := Some n; v_description := None;
     v_released := Some false; v_releaseDate := None; v_archived := Some false |}.

Definition sampleParams : ProjectVersionUpsertParams :=
  {| p_name := "v1.2.0"; p_description := Some "Second minor release";
     p_released := true; p_releaseDate := None; p_archived := false |}.

Definition emptyTracker : MemTracker :=
  {| versions := []; missing := []; down := false |}.

(** A project whose versions are near matches of ["v1.2.0"]. *)
Definition nearTracker : MemTracker :=
  {| versions := [sampleVersion "10001" "V1.2.0"; sampleVersion "10002" "v1.2.0-rc1";
                  sampleVersion "10003" "v1.2.0"; sampleVersion "10004" "v1.2.0"];
     missing := []; down := false |}.

(** A tracker that answers every request by throwing a plain object. *)
Definition downTracker : MemTracker :=
  {| versions := []; missing := []; down := true |}.

(** A tracker whose client throws, on every request, an Error that holds a
    reference to itself. *)
Definition cyclicError : Thrown :=
  UnserialisableError "Error" "Request failed with status code 401"
    "Converting circular structure to JSON".

Definition cyclicTracker : Tracker unit :=
  {| getProjectVersionsPaginated := fun _ _ _ st => (Throw cyclicError, st);
     getProject := fun _ _ st => (Throw cyclicError, st);
     createVersion := fun _ _ _ st => (Throw cyclicError, st);
     updateVersion := fun _ _ _ st => (Throw cyclicError, st);
     deleteAndReplaceVersion := fun _ _ st => (Throw cyclicError, st);
     setFixVersion := fun _ _ _ st => (Throw cyclicError, st) |}.

(** A tracker on which issue AB-1 does not exist. *)
Definition noIssueTracker : MemTracker :=
  {| versions := []; missing := ["AB-1"]; down := false |}.

(** 2024-11-03T08:00:00.123Z. *)
Definition sampleNow : Z := 1730620800123.

Definition datedParams (released : bool) (date : string)
  : ProjectVersionUpsertParams :=
  {| p_name := "v1.2.0"; p_description := Some "Second minor release";
     p_released := released; p_releaseDate := Some date; p_archived := false |}.

Definition withDate (cfg : Inputs) (date : string) : Inputs :=
  {| email := email cfg; api_token := api_token cfg; subdomain := subdomain cfg;
     jira_project := jira_project cfg; release_name := release_name cfg;
     operation := operation cfg; tickets := tickets cfg; dry_run := dry_run cfg;
     release_description := release_description cfg;
     release_released := release_released cfg;
     release_release_date := date;
     release_archived := release_archived cfg |}.

Definition withTickets (cfg : Inputs) (t : string) : Inputs :=
  {| email := email cfg; api_token := api_token cfg; subdomain := subdomain cfg;
     jira_project := jira_project cfg; release_name := release_name cfg;
     operation := operation cfg; tickets := t; dry_run := dry_run cfg;
     release_description := release_description cfg;
     release_released := release_released cfg;
     release_release_date := release_release_date cfg;
     release_archived := release_archived cfg |}.

Definition dryRun (cfg : Inputs) : Inputs :=
  {| email := email cfg; api_token := api_token cfg; subdomain := subdomain cfg;
     jira_project := jira_project cfg; release_name := release_name cfg;
     operation := operation cfg; tickets := tickets cfg; dry_run := true;
     release_description := release_description cfg;
     release_released := release_released cfg;
     release_release_date := release_release_date cfg;
     release_archived := release_archived cfg |}.

Definition withOperation (cfg : Inputs) (op : string) : Inputs :=
  {| email := email cfg; api_token := api_token cfg; subdomain := subdomain cfg;
     jira_project := jira_project cfg; release_name := release_name cfg;
     operation := op; tickets := tickets cfg; dry_run := dry_run cfg;
     release_description := release_description cfg;
     release_released := release_released cfg;
     release_release_date := release_release_date cfg;
     release_archived := release_archived cfg |}.

(** A project whose version ["v1.2.0"] came back without an identifier. *)
Definition idlessTracker : MemTracker :=
  {| versions := [{| v_id := None; v_name := Some "v1.2.0"; v_description := None;
                     v_released := Some false; v_releaseDate := None;
                     v_archived := Some false |}];
     missing := []; down := false |}.

(** The action on the tracker in memory. *)
Definition runOn (cfg : Inputs) (st : MemTracker)
  : list Event * MemTracker * Completion unit :=
  run memTracker (coreOf cfg) isoOnly sampleNow plainMessage st.

Definition upsertOn (params : ProjectVersionUpsertParams) (st : MemTracker)
  : list Event * MemTracker * Completion Version :=
  upsertProjectVersion memTracker isoOnly sampleNow sampleClient "AB" params st.

Definition traceOf {A} (res : list Event * MemTracker * Completion A) : list Event :=
  fst (fst res).

(** ** The Date model on known instants *)

Example toISOString_epoch :
  toISOString (Some 0) = Normal "1970-01-01T00:00:00.000Z".
Proof. reflexivity. Qed.

Example toISOString_sample :
  toISOString (Some sampleNow) = Normal "2024-11-03T08:00:00.123Z".
Proof. reflexivity. Qed.

Example toISOString_before_epoch :
  toISOString (Some (-1)) = Normal "1969-12-31T23:59:59.999Z".
Proof. reflexivity. Qed.

Example toISOString_extremes :
  toISOString (Some maxTime) = Normal "+275760-09-13T00:00:00.000Z"
  /\ toISOString (Some (- maxTime)) = Normal "-271821-04-20T00:00:00.000Z".
Proof. split; reflexivity. Qed.

Example parseISODate_samples :
  parseISODate "2024-02-29" = Some 1709164800000
  /\ parseISODate "2023-02-29" = None
  /\ parseISODate "-000000-01-01" = None
  /\ parseISODate "not-a-date" = None.
Proof. repeat split; reflexivity. Qed.

Example split_trim_tickets :
  map trim (split "," "AB-1, AB-2") = ["AB-1"; "AB-2"]
  /\ split "," "" = [""].
Proof. split; reflexivity. Qed.

(** ** Calendar arithmetic *)

Ltac zdiv := Z.div_mod_to_equations; lia.

Lemma YearFromDay_spec d :
  DayFromYear (YearFromDay d) <= d < DayFromYear (YearFromDay d + 1).
Proof.
  unfold YearFromDay.
  remember (400 * d / 146097) as q eqn:Hq.
  assert (Hb : 146097 * q <= 400 * d < 146097 * q + 146097) by (subst q; zdiv).
  clear Hq.
  destruct (Z.leb_spec (DayFromYear (1970 + q + 1)) d) as [H1|H1];
    [|destruct (Z.ltb_spec d (DayFromYear (1970 + q))) as [H2|H2]];
    unfold DayFromYear in *; zdiv.
Qed.

Lemma DayFromYear_succ y : DayFromYear (y + 1) = DayFromYear y + DaysInYear y.
Proof.
  unfold DayFromYear, DaysInYear, isLeap.
  destruct (Z.eqb_spec (y mod 4) 0), (Z.eqb_spec (y mod 100) 0),
    (Z.eqb_spec (y mod 400) 0); cbn [andb orb negb]; zdiv.
Qed.

Lemma DayFromYear_mono y y' : y < y' -> DayFromYear y + 365 <= DayFromYear y'.
Proof. intros H. unfold DayFromYear. zdiv. Qed.

(** [YearFromDay] is the largest year starting on or before the day. *)
Lemma YearFromDay_unique d y :
  DayFromYear y <= d < DayFromYear (y + 1) -> YearFromDay d = y.
Proof.
  intros H. pose proof (YearFromDay_spec d) as Hs.
  destruct (Z.lt_trichotomy (YearFromDay d) y) as [Hlt|[Heq|Hgt]]; [|exact Heq|].
  - assert (YearFromDay d + 1 <= y) as Hle by lia.
    destruct (Z.eq_dec (YearFromDay d + 1) y) as [E|E].
    + rewrite E in Hs. lia.
    + pose proof (DayFromYear_mono (YearFromDay d + 1) y). lia.
  - destruct (Z.eq_dec (y + 1) (YearFromDay d)) as [E|E].
    + rewrite E in H. lia.
    + pose proof (DayFromYear_mono (y + 1) (YearFromDay d)). lia.
Qed.

Lemma DayWithinYear_range d :
  0 <= d - DayFromYear (YearFromDay d) < DaysInYear (YearFromDay d).
Proof.
  pose proof (YearFromDay_spec d) as H.
  rewrite DayFromYear_succ in H. lia.
Qed.

Lemma YearFromDay_range d :
  -100000000 <= d <= 100000000 -> -271821 <= YearFromDay d <= 275760.
Proof.
  intros Hd. pose proof (YearFromDay_spec d) as H.
  unfold DayFromYear in H. zdiv.
Qed.

Lemma Day_range t : validTime t = true -> -100000000 <= Day t <= 100000000.
Proof.
  unfold validTime, maxTime, Day, msPerDay. intros H.
  apply andb_true_iff in H as [H1 H2].
  apply Z.leb_le in H1, H2. zdiv.
Qed.

Lemma month_date_range leap n :
  (leap = 0 \/ leap = 1) -> 0 <= n < 365 + leap ->
  let m := monthOfDayInYear leap n in
  0 <= m <= 11 /\
  1 <= n - monthStart leap m + 1 <= monthStart leap (m + 1) - monthStart leap m.
Proof.
  intros Hl Hn m. subst m. unfold monthOfDayInYear.
  repeat match goal with
         | |- context [?a <? ?b] => destruct (Z.ltb_spec a b)
         end;
    try (exfalso; lia);
    change (0 + 1) with 1; change (1 + 1) with 2; change (2 + 1) with 3;
    change (3 + 1) with 4; change (4 + 1) with 5; change (5 + 1) with 6;
    change (6 + 1) with 7; change (7 + 1) with 8; change (8 + 1) with 9;
    change (9 + 1) with 10; change (10 + 1) with 11; change (11 + 1) with 12;
    cbv beta iota delta [monthStart]; lia.
Qed.

Lemma MakeDay_from_day d :
  let y := YearFromDay d in
  let leap := if isLeap y then 1 else 0 in
  let m := monthOfDayInYear leap (d - DayFromYear y) in
  let dt := d - DayFromYear y - monthStart leap m + 1 in
  0 <= m <= 11 /\ 1 <= dt <= DaysInMonth y m /\ MakeDay y m dt = d.
Proof.
  intros y leap m dt.
  pose proof (DayWithinYear_range d) as Hr. fold y in Hr.
  assert (Hl : leap = 0 \/ leap = 1) by (unfold leap; destruct (isLeap y); auto).
  assert (Hn : 0 <= d - DayFromYear y < 365 + leap).
  { unfold DaysInYear in Hr. unfold leap. destruct (isLeap y); lia. }
  destruct (month_date_range leap _ Hl Hn) as [Hm Hd]. fold m in Hm, Hd.
  unfold DaysInMonth, MakeDay. fold leap. unfold dt. lia.
Qed.

Lemma DaysInMonth_le y m : 0 <= m <= 11 -> DaysInMonth y m <= 31.
Proof.
  intros Hm. unfold DaysInMonth.
  assert (E : m = 0 \/ m = 1 \/ m = 2 \/ m = 3 \/ m = 4 \/ m = 5 \/ m = 6
            \/ m = 7 \/ m = 8 \/ m = 9 \/ m = 10 \/ m = 11) by lia.
  destruct (isLeap y);
    repeat (destruct E as [E|E]; [subst m; cbn; lia|]); subst m; cbn; lia.
Qed.

(** ** Decimal fields: reading what was written *)

Lemma digitValue_digitChar k : 0 <= k <= 9 -> digitValue (digitChar k) = Some k.
Proof.
  intros H.
  assert (E : k = 0 \/ k = 1 \/ k = 2 \/ k = 3 \/ k = 4 \/ k = 5 \/ k = 6
              \/ k = 7 \/ k = 8 \/ k = 9) by lia.
  repeat (destruct E as [E|E]; [subst k; reflexivity|]). subst k. reflexivity.
Qed.

Lemma mod10_digit a : 0 <= a mod 10 <= 9.
Proof. zdiv. Qed.

Lemma digits_decimal n : forall v acc rest,
  digits n acc (decimal n v ++ rest)
  = Some (acc * 10 ^ Z.of_nat n + v mod 10 ^ Z.of_nat n, rest).
Proof.
  induction n as [|k IH]; intros v acc rest.
  - cbn [digits decimal append]. rewrite Z.mod_1_r. f_equal. f_equal. cbn. lia.
  - cbn [digits decimal append].
    rewrite digitValue_digitChar by apply mod10_digit.
    rewrite IH. f_equal. f_equal.
    rewrite Nat2Z.inj_succ, Z.pow_succ_r by lia.
    rewrite (Z.mul_comm 10 (10 ^ Z.of_nat k)).
    rewrite (Z.rem_mul_r v (10 ^ Z.of_nat k) 10) by lia.
    lia.
Qed.

Lemma digits_decimal_small n v rest :
  0 <= v < 10 ^ Z.of_nat n ->
  digits n 0 (decimal n v ++ rest) = Some (v, rest).
Proof.
  intros H. rewrite digits_decimal, Z.mod_small by exact H. reflexivity.
Qed.

Lemma append_assoc s1 s2 s3 : (s1 ++ s2) ++ s3 = s1 ++ (s2 ++ s3).
Proof. induction s1 as [|c s1 IH]; cbn; [reflexivity | now rewrite IH]. Qed.

Lemma append_empty_r s : s ++ "" = s.
Proof. induction s as [|c s IH]; cbn; [reflexivity | now rewrite IH]. Qed.

Lemma parseYear_digit c s v :
  digitValue c = Some v -> parseYear (String c s) = digits 4 0 (String c s).
Proof.
  destruct c as [[] [] [] [] [] [] [] []]; cbn; intros H;
    solve [discriminate H | reflexivity].
Qed.

Lemma parseYear_yearString y rest :
  -999999 <= y <= 999999 -> parseYear (yearString y ++ rest) = Some (y, rest).
Proof.
  intros Hy. unfold yearString.
  destruct (Z.leb_spec 0 y) as [H0|H0]; [destruct (Z.leb_spec y 9999) as [H1|H1]|];
    cbn [andb].
  - change (decimal 4 y) with
      (String (digitChar (y / 10 ^ Z.of_nat 3 mod 10)) (decimal 3 y)).
    cbn [append].
    erewrite parseYear_digit
      by apply digitValue_digitChar, mod10_digit.
    apply (digits_decimal_small 4 y rest). cbn. lia.
  - destruct (Z.ltb_spec y 0); [lia|].
    cbn [append parseYear]. apply (digits_decimal_small 6). cbn. lia.
  - destruct (Z.ltb_spec y 0); [|lia].
    cbn [append parseYear]. rewrite (digits_decimal_small 6) by (cbn; lia).
    destruct (Z.eqb_spec (- y) 0); [lia|]. f_equal. f_equal. lia.
Qed.

Lemma Day_mul n : Day (n * msPerDay) = n.
Proof. unfold Day, msPerDay. zdiv. Qed.

(** Reading the date part of an ISO string gives back midnight of its day. *)
Lemma parseISODate_dateString t :
  validTime t = true -> parseISODate (dateString t) = Some (Day t * msPerDay).
Proof.
  intros Hv. pose proof (Day_range t Hv) as Hd.
  pose proof (YearFromDay_range _ Hd) as Hy.
  destruct (MakeDay_from_day (Day t)) as (Hm & Hdt & Hmk).
  unfold parseISODate, dateString, DateFromTime, MonthFromTime, DayWithinYear,
    InLeapYear, YearFromTime.
  set (y := YearFromDay (Day t)) in *.
  set (leap := if isLeap y then 1 else 0) in *.
  set (m := monthOfDayInYear leap (Day t - DayFromYear y)) in *.
  pose proof (DaysInMonth_le y m Hm) as Hdim.
  rewrite parseYear_yearString by lia.
  cbn [append expect Ascii.eqb Bool.eqb].
  rewrite (digits_decimal_small 2) by (change (10 ^ Z.of_nat 2) with 100; lia).
  cbn [append expect Ascii.eqb Bool.eqb].
  rewrite <- (append_empty_r (decimal 2 _)).
  rewrite (digits_decimal_small 2) by (change (10 ^ Z.of_nat 2) with 100; lia).
  replace (m + 1 - 1) with m by lia.
  destruct (Z.leb_spec 1 (m + 1)); [|lia].
  destruct (Z.leb_spec (m + 1) 12); [|lia].
  match goal with |- context [1 <=? ?x] => destruct (Z.leb_spec 1 x); [|lia] end.
  match goal with |- context [?x <=? DaysInMonth y m] =>
    destruct (Z.leb_spec x (DaysInMonth y m)); [|lia] end.
  cbn [andb]. rewrite Hmk. reflexivity.
Qed.

Lemma dateString_Day t t' : Day t = Day t' -> dateString t = dateString t'.
Proof.
  intros E.
  unfold dateString, DateFromTime, MonthFromTime, InLeapYear, DayWithinYear,
    YearFromTime.
  rewrite E. reflexivity.
Qed.

Lemma dateString_midnight t : dateString (Day t * msPerDay) = dateString t.
Proof. apply dateString_Day, Day_mul. Qed.

Lemma validTime_midnight t :
  validTime t = true -> validTime (Day t * msPerDay) = true.
Proof.
  unfold validTime, maxTime, Day, msPerDay. intros H.
  apply andb_true_iff in H as [H1 H2]. apply Z.leb_le in H1, H2.
  apply andb_true_iff; split; apply Z.leb_le; zdiv.
Qed.

(** ** The date part of an ISO string *)

Lemma occurs_append c s1 s2 : occurs c (s1 ++ s2) = occurs c s1 || occurs c s2.
Proof.
  induction s1 as [|a s1 IH]; cbn; [reflexivity|].
  rewrite IH. apply orb_assoc.
Qed.

Lemma split_hd sep s1 s2 :
  occurs sep s1 = false ->
  hd_error (split sep (s1 ++ String sep s2)) = Some s1.
Proof.
  induction s1 as [|c s1 IH]; cbn [occurs append split]; intros H.
  - rewrite Ascii.eqb_refl. reflexivity.
  - apply orb_false_iff in H as [Hc Hs]. rewrite Hc.
    specialize (IH Hs).
    destruct (split sep (s1 ++ String sep s2)) as [|p ps]; [discriminate IH|].
    cbn in IH |- *. congruence.
Qed.

Lemma digitChar_not_T k : 0 <= k <= 9 -> Ascii.eqb (digitChar k) "T" = false.
Proof.
  intros H.
  assert (E : k = 0 \/ k = 1 \/ k = 2 \/ k = 3 \/ k = 4 \/ k = 5 \/ k = 6
              \/ k = 7 \/ k = 8 \/ k = 9) by lia.
  repeat (destruct E as [E|E]; [subst k; reflexivity|]). subst k. reflexivity.
Qed.

Lemma occurs_T_decimal n v : occurs "T" (decimal n v) = false.
Proof.
  induction n as [|k IH]; cbn [decimal occurs]; [reflexivity|].
  rewrite digitChar_not_T by apply mod10_digit. exact IH.
Qed.

Lemma occurs_T_dateString t : occurs "T" (dateString t) = false.
Proof.
  unfold dateString, yearString.
  rewrite !occurs_append, !occurs_T_decimal.
  destruct (_ && _); [|destruct (_ <? _)]; cbn [occurs];
    rewrite ?occurs_T_decimal; reflexivity.
Qed.

Lemma truthy_dateString t : truthy (dateString t) = true.
Proof.
  unfold dateString, yearString.
  destruct (_ && _); [|destruct (_ <? _)]; reflexivity.
Qed.

Lemma Date_parse_valid engine s t :
  Date_parse engine s = Some t -> validTime t = true.
Proof.
  unfold Date_parse, TimeClip. intros H.
  assert (Hengine : match engine s with
                    | Some u => if validTime u then Some u else None
                    | None => None
                    end = Some t -> validTime t = true).
  { destruct (engine s) as [u|]; [|discriminate].
    destruct (validTime u) eqn:E; [|discriminate].
    intros [= <-]. exact E. }
  destruct (parseISODate s) as [t0|]; [|auto].
  destruct (validTime t0) eqn:E; [|auto].
  injection H as <-. exact E.
Qed.

Lemma Date_parse_dateString engine t :
  validTime t = true ->
  Date_parse engine (dateString t) = Some (Day t * msPerDay).
Proof.
  intros H. unfold Date_parse, TimeClip.
  rewrite (parseISODate_dateString t H), (validTime_midnight t H). reflexivity.
Qed.

Section Normalisation.

Variable engine : string -> option Z.

Lemma isoDay_valid t : isoDay (Some t) = Normal (Some (dateString t)).
Proof.
  unfold isoDay, toISOString.
  change (dateString t ++ "T" ++ timeString t)
    with (dateString t ++ String "T" (timeString t)).
  rewrite split_hd by apply occurs_T_dateString. reflexivity.
Qed.

Lemma isoDay_invalid :
  isoDay None = Throw (ErrorObject "RangeError" "Invalid time value").
Proof. reflexivity. Qed.

Lemma isoDay_Date_new s t :
  Date_new engine s = Some t ->
  isoDay (Date_new engine s) = Normal (Some (dateString t)).
Proof. intros ->. apply isoDay_valid. Qed.

(** Formatting a formatted day changes nothing. *)
Lemma isoDay_dateString t :
  validTime t = true ->
  isoDay (Date_new engine (dateString t)) = Normal (Some (dateString t)).
Proof.
  intros H. unfold Date_new. rewrite (Date_parse_dateString engine t H).
  rewrite isoDay_valid, dateString_midnight. reflexivity.
Qed.

End Normalisation.

(** ** Runs of the action *)

Section Runs.

Context {S : Type}.
Variable tracker : Tracker S.
Variable core : ActionsCore.
Variable engine : string -> option Z.
Variable now : Z.
Variable picklistMessage : string -> string.

Ltac unfold_M :=
  cbv beta iota delta [bind ret throw lift emit send core_info core_debug
                       core_setFailed] in *.

Lemma getProjectVersionByName_run client projectKey name s :
  getProjectVersionByName tracker client projectKey name s =
  match getProjectVersionsPaginated tracker client projectKey name s with
  | (Normal page, s1) =>
      ([Info (Text ("Getting version " ++ name ++ "..."));
        Sent client (GetProjectVersionsPaginated projectKey name);
        Debug (Json (DPage page))], s1, Normal (findByName name page))
  | (Throw e, s1) =>
      ([Info (Text ("Getting version " ++ name ++ "..."));
        Sent client (GetProjectVersionsPaginated projectKey name)], s1, Throw e)
  end.
Proof.
  unfold getProjectVersionByName. unfold_M.
  destruct (getProjectVersionsPaginated _ _ _ _ _) as [[page|e] s1]; reflexivity.
Qed.

Lemma upsertPayloads_app tr1 tr2 :
  upsertPayloads (tr1 ++ tr2) = (upsertPayloads tr1 ++ upsertPayloads tr2)%list.
Proof. unfold upsertPayloads, requests. now rewrite !flat_map_app. Qed.

Lemma createProjectVersion_payloads client projectKey params s tr s' r :
  createProjectVersion tracker engine now client projectKey params s = (tr, s', r) ->
  (upsertPayloads tr = [] /\ forall v, r <> Normal v)
  \/ (exists p, prepareUpsertParams engine now params = Normal p
                /\ upsertPayloads tr = [p]).
Proof.
  unfold createProjectVersion, getProjectId. unfold_M.
  destruct (getProject _ _ _ _) as [[project|e] s1].
  - destruct (prepareUpsertParams engine now params) as [p|e].
    + destruct (createVersion _ _ _ _ _) as [c s2].
      intros [= <- <- <-]. right. exists p. split; reflexivity.
    + intros [= <- <- <-]. left. split; [reflexivity | discriminate].
  - intros [= <- <- <-]. left. split; [reflexivity | discriminate].
Qed.

Lemma updateProjectVersion_payloads client versionId params s tr s' r :
  updateProjectVersion tracker engine now client versionId params s = (tr, s', r) ->
  (upsertPayloads tr = [] /\ forall v, r <> Normal v)
  \/ (exists p, prepareUpsertParams engine now params = Normal p
                /\ upsertPayloads tr = [p]).
Proof.
  unfold updateProjectVersion. unfold_M.
  destruct (prepareUpsertParams engine now params) as [p|e].
  - destruct (updateVersion _ _ _ _ _) as [c s2].
    intros [= <- <- <-]. right. exists p. split; reflexivity.
  - intros [= <- <- <-]. left. split; [reflexivity | discriminate].
Qed.

Lemma bind_inv {A B} (m : @M S A) (k : A -> @M S B) s tr s' r :
  bind m k s = (tr, s', r) ->
  (exists e, m s = (tr, s', Throw e) /\ r = Throw e)
  \/ (exists tr1 s1 a tr2,
        m s = (tr1, s1, Normal a) /\ k a s1 = (tr2, s', r)
        /\ tr = (tr1 ++ tr2)%list).
Proof.
  unfold bind. destruct (m s) as [[tr1 s1] [a|e]].
  - destruct (k a s1) as [[tr2 s2] r2] eqn:E. intros [= <- <- <-].
    right. exists tr1, s1, a, tr2. auto.
  - intros [= <- <- <-]. left. exists e. auto.
Qed.

Lemma lift_inv {A} (c : Completion A) (s : S) tr s' r :
  lift c s = (tr, s', r) -> tr = [] /\ s' = s /\ r = c.
Proof. unfold lift. intros [= <- <- <-]. auto. Qed.

Lemma getProjectVersionByName_inv client projectKey name s tr s' r :
  getProjectVersionByName tracker client projectKey name s = (tr, s', r) ->
  upsertPayloads tr = []
  /\ requests tr = [GetProjectVersionsPaginated projectKey name]
  /\ ((exists page,
         getProjectVersionsPaginated tracker client projectKey name s
           = (Normal page, s')
         /\ r = Normal (findByName name page))
      \/ (exists e,
            getProjectVersionsPaginated tracker client projectKey name s
              = (Throw e, s')
            /\ r = Throw e)).
Proof.
  rewrite getProjectVersionByName_run.
  destruct (getProjectVersionsPaginated _ _ _ _ _) as [[page|e] s1];
    intros [= <- <- <-]; (split; [reflexivity|split; [reflexivity|]]).
  - left. exists page. auto.
  - right. exists e. auto.
Qed.

(** Every run of the upsert sends at most one create or update, and a run
    that returns sent one; its payload is [prepareUpsertParams] of the
    parameters after the first normalisation. *)
Lemma upsertProjectVersion_payloads client projectKey params s tr s' r :
  upsertProjectVersion tracker engine now client projectKey params s = (tr, s', r) ->
  (upsertPayloads tr = [] /\ forall v, r <> Normal v)
  \/ (exists d p,
        normalizeReleaseDate engine (p_releaseDate params) = Normal d
        /\ prepareUpsertParams engine now (set_releaseDate params d) = Normal p
        /\ upsertPayloads tr = [p]).
Proof.
  unfold upsertProjectVersion. intros H.
  apply bind_inv in H as [(e & H1 & ->)|(tr1 & s1 & d & tr2 & H1 & H2 & ->)];
    apply lift_inv in H1 as (-> & Hs & Hn).
  { left. split; [reflexivity | discriminate]. }
  subst s1. cbn [app].
  apply bind_inv in H2 as [(e & H1 & ->)|(tr1 & s1 & v & tr3 & H1 & H2 & ->)];
    apply getProjectVersionByName_inv in H1 as (Hp & _ & _).
  { left. split; [exact Hp | discriminate]. }
  rewrite upsertPayloads_app, Hp. cbn [app].
  assert (Hbranch :
    upsertPayloads tr3 = [] /\ (forall v, r <> Normal v)
    \/ (exists p, prepareUpsertParams engine now (set_releaseDate params d) = Normal p
                  /\ upsertPayloads tr3 = [p])).
  { destruct v as [v|]; [destruct (v_id v) as [i|]; [destruct (truthy i)|]|];
      first [eapply updateProjectVersion_payloads; eassumption
            | eapply createProjectVersion_payloads; eassumption]. }
  destruct Hbranch as [?|(p & ? & ?)]; [left; assumption|].
  right. exists d, p. auto.
Qed.

(** *** The release date of the payload *)

Lemma prepareUpsertParams_unreleased params :
  p_released params = false ->
  prepareUpsertParams engine now params = Normal (set_releaseDate params None).
Proof. intros H. unfold prepareUpsertParams. rewrite H. reflexivity. Qed.

Lemma prepareUpsertParams_stamps params :
  p_released params = true ->
  truthy_opt (p_releaseDate params) = false ->
  validTime now = true ->
  prepareUpsertParams engine now params
  = Normal (set_releaseDate params (Some (dateString now))).
Proof.
  intros Hr Hd Hn. unfold prepareUpsertParams, Date_now, TimeClip.
  rewrite Hr, Hd, Hn. cbn [andb negb].
  rewrite isoDay_valid, truthy_dateString, (isoDay_dateString engine now Hn).
  rewrite truthy_dateString, (isoDay_dateString engine now Hn). reflexivity.
Qed.

Lemma normalizeReleaseDate_absent d :
  truthy_opt d = false -> normalizeReleaseDate engine d = Normal None.
Proof.
  destruct d as [x|]; [|reflexivity]. cbn. intros ->. reflexivity.
Qed.

(** C1: with [released = false], whatever release date the spec carries,
    every create and every update the upsert sends has no release date;
    and an upsert that returns has sent one such request. *)
Theorem unreleased_payload_has_no_date client projectKey params s tr s' r :
  p_released params = false ->
  upsertProjectVersion tracker engine now client projectKey params s = (tr, s', r) ->
  Forall (fun p => p_releaseDate p = None) (upsertPayloads tr)
  /\ (forall v, r = Normal v -> exists p, upsertPayloads tr = [p]).
Proof.
  intros Hr H.
  destruct (upsertProjectVersion_payloads _ _ _ _ _ _ _ H)
    as [[Hn Hf]|(d & p & _ & Hp & Hl)].
  - rewrite Hn. split; [constructor|]. intros v Hv. destruct (Hf v Hv).
  - rewrite prepareUpsertParams_unreleased in Hp by exact Hr.
    injection Hp as <-. rewrite Hl. split; [|eauto].
    constructor; [reflexivity | constructor].
Qed.

Lemma upsertProjectVersion_invalid_date client projectKey params date s :
  p_releaseDate params = Some date ->
  truthy date = true ->
  Date_new engine date = None ->
  upsertProjectVersion tracker engine now client projectKey params s
  = ([], s, Throw (ErrorObject "RangeError" "Invalid time value")).
Proof.
  intros Hd Ht Hp.
  unfold upsertProjectVersion, bind, lift, normalizeReleaseDate.
  rewrite Hd, Ht, Hp. reflexivity.
Qed.

(** C3, amended: a release date that is supplied (not empty) and fails to
    parse makes the upsert throw a RangeError at its first statement, before
    any log line or request; only an absent or empty date is taken as
    absent. *)
Theorem malformed_date_raises client projectKey params date s :
  p_releaseDate params = Some date ->
  truthy date = true ->
  Date_new engine date = None ->
  upsertProjectVersion tracker engine now client projectKey params s
  = ([], s, Throw (ErrorObject "RangeError" "Invalid time value"))
  /\ normalizeReleaseDate engine None = Normal None
  /\ normalizeReleaseDate engine (Some "") = Normal None.
Proof.
  intros Hd Ht Hp. split; [|split; reflexivity].
  now apply upsertProjectVersion_invalid_date with (date := date).
Qed.

(** C9: for a string the Date constructor accepts, the day the
    normalisation yields is a fixed point of the normalisation: normalising
    it again, through the bare expression or through the first statement of
    the upsert, yields the same day. *)
Theorem normalisation_is_idempotent (x : string) (t : Z) :
  Date_new engine x = Some t ->
  exists day,
    isoDay (Date_new engine x) = Normal (Some day)
    /\ isoDay (Date_new engine day) = Normal (Some day)
    /\ normalizeReleaseDate engine (Some day) = Normal (Some day).
Proof.
  intros H. exists (dateString t).
  pose proof (Date_parse_valid _ _ _ H) as Hv.
  split; [now apply isoDay_Date_new|].
  split; [now apply isoDay_dateString|].
  unfold normalizeReleaseDate. rewrite truthy_dateString.
  now apply isoDay_dateString.
Qed.

(** *** Lookup and delete *)

Lemma nameIs_true name v : nameIs name v = true <-> v_name v = Some name.
Proof.
  unfold nameIs. destruct (v_name v) as [n|].
  - rewrite String.eqb_eq. split; congruence.
  - split; discriminate.
Qed.

Lemma nameIs_false name v : nameIs name v = false <-> v_name v <> Some name.
Proof.
  rewrite <- nameIs_true. destruct (nameIs name v); split; congruence.
Qed.

Lemma find_nameIs_some name vs v :
  find (nameIs name) vs = Some v ->
  exists l1 l2, vs = (l1 ++ v :: l2)%list /\ v_name v = Some name
                /\ Forall (fun u => v_name u <> Some name) l1.
Proof.
  induction vs as [|u vs IH]; cbn [find]; [discriminate|].
  destruct (nameIs name u) eqn:E.
  - intros [= ->]. exists [], vs. split; [reflexivity|].
    split; [now apply nameIs_true | constructor].
  - intros H. destruct (IH H) as (l1 & l2 & -> & Hn & Hl).
    exists (u :: l1), l2. split; [reflexivity|]. split; [exact Hn|].
    constructor; [now apply nameIs_false | exact Hl].
Qed.

Lemma find_nameIs_none name vs :
  find (nameIs name) vs = None -> Forall (fun u => v_name u <> Some name) vs.
Proof.
  induction vs as [|u vs IH]; cbn [find]; [constructor|].
  destruct (nameIs name u) eqn:E; [discriminate|].
  intros H. constructor; [now apply nameIs_false | auto].
Qed.

(** C6: when the tracker answers the listing with a page, the lookup sends
    that one request and returns the first version of the page whose name
    equals the requested name, code unit for code unit; it returns null when
    the page has no [values] or none of its versions has that name. *)
Theorem lookup_returns_first_exact_match client projectKey name s page s1 :
  getProjectVersionsPaginated tracker client projectKey name s = (Normal page, s1) ->
  exists tr found,
    getProjectVersionByName tracker client projectKey name s
      = (tr, s1, Normal found)
    /\ requests tr = [GetProjectVersionsPaginated projectKey name]
    /\ match found with
       | Some v =>
           exists vs l1 l2,
             values page = Some vs /\ vs = (l1 ++ v :: l2)%list
             /\ v_name v = Some name
             /\ Forall (fun u => v_name u <> Some name) l1
       | None =>
           values page = None
           \/ exists vs, values page = Some vs
                         /\ Forall (fun u => v_name u <> Some name) vs
       end.
Proof.
  intros H. rewrite getProjectVersionByName_run, H.
  eexists. exists (findByName name page).
  split; [reflexivity|]. split; [reflexivity|].
  unfold findByName. destruct (values page) as [vs|]; [|now left].
  destruct (find (nameIs name) vs) as [v|] eqn:E.
  - destruct (find_nameIs_some _ _ _ E) as (l1 & l2 & Hvs & Hn & Hl).
    exists vs, l1, l2. auto.
  - right. exists vs. split; [reflexivity|]. now apply find_nameIs_none.
Qed.

Lemma deleteProjectVersionByName_run client projectKey name s :
  deleteProjectVersionByName tracker client projectKey name s =
  let notFound := Throw (ErrorObject "Error" ("Version " ++ name ++ " not found")) in
  match getProjectVersionByName tracker client projectKey name s with
  | (tr, s1, Throw e) => (tr, s1, Throw e)
  | (tr, s1, Normal None) => ((tr ++ [])%list, s1, notFound)
  | (tr, s1, Normal (Some v)) =>
      match v_id v with
      | Some i =>
          if truthy i then
            match deleteAndReplaceVersion tracker client i s1 with
            | (a, s2) =>
                ((tr ++ [Info (Text ("Deleting version " ++ name ++ "..."));
                         Debug (Json (DVersion v));
                         Sent client (DeleteAndReplaceVersion i)])%list, s2, a)
            end
          else ((tr ++ [])%list, s1, notFound)
      | None => ((tr ++ [])%list, s1, notFound)
      end
  end.
Proof.
  unfold deleteProjectVersionByName. unfold bind at 1.
  destruct (getProjectVersionByName _ _ _ _ _) as [[tr s1] [[v|]|e]];
    try reflexivity.
  destruct (v_id v) as [i|]; [|reflexivity].
  destruct (truthy i); [|reflexivity].
  unfold_M. destruct (deleteAndReplaceVersion _ _ _ _) as [a s2]. reflexivity.
Qed.

(** C5: when the page the tracker returns holds no version of the requested
    name, the delete throws an Error whose message names it and sends nothing
    but the listing; and in every run, a delete request is sent only after
    the listing returned a page in which the lookup found a version, whose
    identifier the request carries. *)
Theorem delete_of_unknown_name_sends_no_delete client projectKey name s tr s' r :
  deleteProjectVersionByName tracker client projectKey name s = (tr, s', r) ->
  (forall page s1,
     getProjectVersionsPaginated tracker client projectKey name s = (Normal page, s1) ->
     findByName name page = None ->
     r = Throw (ErrorObject "Error" ("Version " ++ name ++ " not found"))
     /\ requests tr = [GetProjectVersionsPaginated projectKey name])
  /\ (forall i,
        In (DeleteAndReplaceVersion i) (requests tr) ->
        exists page s1 v,
          getProjectVersionsPaginated tracker client projectKey name s
            = (Normal page, s1)
          /\ findByName name page = Some v /\ v_id v = Some i
          /\ requests tr = [GetProjectVersionsPaginated projectKey name;
                            DeleteAndReplaceVersion i]).
Proof.
  rewrite deleteProjectVersionByName_run, getProjectVersionByName_run.
  destruct (getProjectVersionsPaginated _ _ _ _ _) as [[page|e] s1].
  - destruct (findByName name page) as [v|] eqn:Ef.
    + destruct (v_id v) as [i|] eqn:Ei; [destruct (truthy i)|].
      * destruct (deleteAndReplaceVersion _ _ _ _) as [a s2].
        cbv beta iota zeta. intros [= <- <- <-]. split.
        -- intros page' s1' [= <- <-]. congruence.
        -- cbn. intros j [Hj|[Hj|[]]]; [discriminate Hj|].
           injection Hj as <-. exists page, s1, v. auto.
      * cbv beta iota zeta. intros [= <- <- <-]. split.
        -- intros page' s1' [= <- <-]. congruence.
        -- cbn. intros j [Hj|[]]. discriminate Hj.
      * cbv beta iota zeta. intros [= <- <- <-]. split.
        -- intros page' s1' [= <- <-]. congruence.
        -- cbn. intros j [Hj|[]]. discriminate Hj.
    + cbv beta iota zeta. intros [= <- <- <-]. split.
      * intros page' s1' _ _. split; reflexivity.
      * cbn. intros j [Hj|[]]. discriminate Hj.
  - intros [= <- <- <-]. split.
    + intros page' s1' [=].
    + cbn. intros j [Hj|[]]. discriminate Hj.
Qed.

(** *** What a run may emit *)

Lemma emits_ret {A} P (a : A) : emits P (ret (S := S) a).
Proof. intros s tr s' r [= <- <- <-]. constructor. Qed.

Lemma emits_throw {A} P e : emits P (throw (S := S) (A := A) e).
Proof. intros s tr s' r [= <- <- <-]. constructor. Qed.

Lemma emits_lift {A} P (c : Completion A) : emits P (lift (S := S) c).
Proof. intros s tr s' r [= <- <- <-]. constructor. Qed.

Lemma emits_emit (P : Event -> Prop) e : P e -> emits P (emit (S := S) e).
Proof. intros H s tr s' r [= <- <- <-]. constructor; [exact H | constructor]. Qed.

Lemma emits_send {A} (P : Event -> Prop) c q (ans : S -> Completion A * S) :
  P (Sent c q) -> emits P (send c q ans).
Proof.
  intros H s tr s' r. unfold send. destruct (ans s) as [a s1].
  intros [= <- <- <-]. constructor; [exact H | constructor].
Qed.

Lemma emits_bind {A B} P (m : @M S A) (k : A -> @M S B) :
  emits P m -> (forall a, emits P (k a)) -> emits P (bind m k).
Proof.
  intros Hm Hk s tr s' r H.
  apply bind_inv in H as [(e & H1 & _)|(tr1 & s1 & a & tr2 & H1 & H2 & ->)].
  - exact (Hm _ _ _ _ H1).
  - apply Forall_app. split; [exact (Hm _ _ _ _ H1) | exact (Hk a _ _ _ _ H2)].
Qed.

Lemma emits_impl {A} (P Q : Event -> Prop) (m : @M S A) :
  (forall e, P e -> Q e) -> emits P m -> emits Q m.
Proof. intros HPQ Hm s tr s' r H. eapply Forall_impl; [exact HPQ | eauto]. Qed.

Ltac emits_step :=
  first
    [ apply emits_bind; [|intros ?]
    | apply emits_emit; reflexivity
    | apply emits_send; reflexivity
    | apply emits_lift
    | apply emits_ret
    | apply emits_throw
    | match goal with
      | |- emits _ (match ?x with _ => _ end) => destruct x
      | |- emits _ (if ?x then _ else _) => destruct x
      end ].

Lemma getProjectVersionByName_emits client projectKey name :
  emits (fun e => lookupEvent e = true)
    (getProjectVersionByName tracker client projectKey name).
Proof.
  unfold getProjectVersionByName, core_info, core_debug. repeat emits_step.
Qed.

Lemma lookupEvent_upsertEvent e : lookupEvent e = true -> upsertEvent e = true.
Proof. destruct e as [| | |c []]; cbn; congruence. Qed.

Lemma createProjectVersion_emits client projectKey params :
  emits (fun e => upsertEvent e = true)
    (createProjectVersion tracker engine now client projectKey params).
Proof.
  unfold createProjectVersion, getProjectId, core_info, core_debug.
  repeat emits_step.
Qed.

Lemma updateProjectVersion_emits client versionId params :
  emits (fun e => upsertEvent e = true)
    (updateProjectVersion tracker engine now client versionId params).
Proof.
  unfold updateProjectVersion, core_info, core_debug. repeat emits_step.
Qed.

Lemma upsertProjectVersion_emits client projectKey params :
  emits (fun e => upsertEvent e = true)
    (upsertProjectVersion tracker engine now client projectKey params).
Proof.
  unfold upsertProjectVersion.
  apply emits_bind; [apply emits_lift | intros d].
  apply emits_bind.
  - eapply emits_impl; [apply lookupEvent_upsertEvent|].
    apply getProjectVersionByName_emits.
  - intros [v|]; [destruct (v_id v) as [i|]; [destruct (truthy i)|]|];
      first [apply updateProjectVersion_emits | apply createProjectVersion_emits].
Qed.

Lemma deleteProjectVersionByName_emits client projectKey name :
  emits (fun e => isSetFailed e = false)
    (deleteProjectVersionByName tracker client projectKey name).
Proof.
  unfold deleteProjectVersionByName, core_info, core_debug.
  apply emits_bind.
  - eapply emits_impl; [|apply getProjectVersionByName_emits].
    intros [| | |c q]; cbn; congruence.
  - intros a. repeat emits_step.
Qed.

Lemma setVersionOnIssues_emits client versionId keys :
  emits (fun e => isSetFailed e = false)
    (setVersionOnIssues tracker client versionId keys).
Proof.
  induction keys as [|k ks IH]; cbn [setVersionOnIssues].
  - apply emits_ret.
  - apply emits_bind; [apply emits_send; reflexivity | intros _; exact IH].
Qed.

Lemma upsertEvent_not_failed e : upsertEvent e = true -> isSetFailed e = false.
Proof. destruct e; cbn; congruence. Qed.

Lemma createOrUpdate_emits client input :
  emits (fun e => isSetFailed e = false)
    (createOrUpdate tracker engine now client input).
Proof.
  unfold createOrUpdate. apply emits_bind.
  - eapply emits_impl; [apply upsertEvent_not_failed|].
    apply upsertProjectVersion_emits.
  - intros version. destruct (truthy (tickets input)).
    + apply setVersionOnIssues_emits.
    + apply emits_ret.
Qed.

(** The [try] block never gives the failure signal itself. *)
Lemma attempt_emits :
  emits (fun e => isSetFailed e = false)
    (attempt tracker core engine now picklistMessage).
Proof.
  unfold attempt, perform, createJiraClient, core_info, core_debug.
  apply emits_bind; [apply emits_lift | intros inputs].
  apply emits_bind; [apply emits_lift | intros input].
  destruct (dry_run input).
  - repeat emits_step.
  - apply emits_bind; [apply emits_emit; reflexivity | intros _].
    apply emits_bind; [apply emits_emit; reflexivity | intros _].
    apply emits_bind; [apply emits_ret | intros client].
    destruct (String.eqb (operation input) "create_or_update").
    + apply createOrUpdate_emits.
    + destruct (String.eqb (operation input) "delete").
      * apply deleteProjectVersionByName_emits.
      * apply emits_ret.
Qed.

(** *** The catch of [run] *)

Lemma run_unfold s :
  run tracker core engine now picklistMessage s =
  match attempt tracker core engine now picklistMessage s with
  | (tr, s1, Normal a) => (tr, s1, Normal a)
  | (tr, s1, Throw (ErrorObject n m)) =>
      ((tr ++ [Debug (Json (DThrown (ErrorObject n m))); SetFailed m])%list,
       s1, Normal tt)
  | (tr, s1, Throw (OtherValue d)) =>
      ((tr ++ [Debug (Json (DThrown (OtherValue d)))])%list, s1, Normal tt)
  | (tr, s1, Throw (UnserialisableError _ _ why)) =>
      (tr, s1, Throw (ErrorObject "TypeError" why))
  | (tr, s1, Throw (UnserialisableValue _ why)) =>
      (tr, s1, Throw (ErrorObject "TypeError" why))
  end.
Proof.
  unfold run, try_catch.
  destruct (attempt _ _ _ _ _ s) as [[tr s1] [a|[n m|d|n m w|d w]]];
    cbv beta iota delta [bind lift JSON_stringify_thrown];
    rewrite ?app_nil_r; reflexivity.
Qed.

(** C4, amended: a value the [try] block of [run] throws, when
    [JSON.stringify] can serialise it, is caught by [run], which then
    completes normally.  If the value is an instance of Error, the run ends
    with one debug line and then the failure signal carrying the message of
    that error, its only failure signal; if it is any other value, the run
    ends with the debug line alone and gives no failure signal at all. *)
Theorem run_reports_errors_only s tr0 s1 e :
  attempt tracker core engine now picklistMessage s = (tr0, s1, Throw e) ->
  serialisable e = true ->
  exists tr,
    run tracker core engine now picklistMessage s = (tr, s1, Normal tt)
    /\ Forall (fun ev => isSetFailed ev = false) tr0
    /\ match errorMessage e with
       | Some message =>
           tr = (tr0 ++ [Debug (Json (DThrown e)); SetFailed message])%list
       | None =>
           tr = (tr0 ++ [Debug (Json (DThrown e))])%list
           /\ Forall (fun ev => isSetFailed ev = false) tr
       end.
Proof.
  intros E He. pose proof (attempt_emits _ _ _ _ E) as Hquiet.
  rewrite run_unfold, E.
  destruct e as [n m|d|n m w|d w]; try discriminate He.
  - eexists. split; [reflexivity|]. split; [exact Hquiet | reflexivity].
  - eexists. split; [reflexivity|]. split; [exact Hquiet|].
    split; [reflexivity|].
    apply Forall_app. split; [exact Hquiet|].
    constructor; [reflexivity | constructor].
Qed.

(** *** Dispatch *)

Lemma attempt_run inputs input s :
  readInputs core = Normal inputs ->
  v_parse engine picklistMessage inputs = Normal input ->
  attempt tracker core engine now picklistMessage s =
  if dry_run input then
    ([Info (Text "Dry run enabled, dumping config:"); Info (Json (DInputs input))],
     s, Normal tt)
  else
    let client := jiraClient (email input) (api_token input) (subdomain input) in
    let dispatch : M unit :=
      if String.eqb (operation input) "create_or_update" then
        createOrUpdate tracker engine now client input
      else if String.eqb (operation input) "delete" then
        deleteProjectVersionByName tracker client (jira_project input)
          (release_name input)
      else ret tt in
    match dispatch s with
    | (tr, s', r) =>
        (Info (Text ("Performing release operation " ++ operation input
                       ++ " on project " ++ jira_project input
                       ++ " for release " ++ release_name input ++ "..."))
           :: Debug (Json (DInputs input)) :: tr, s', r)
    end.
Proof.
  intros Hi Hv. unfold attempt. rewrite Hi.
  unfold bind at 1, lift at 1. cbn [app].
  unfold perform, createJiraClient. rewrite Hv.
  unfold_M. destruct (dry_run input); [reflexivity|].
  cbv zeta.
  match goal with
  | |- context [?d s] =>
      match type of d with M unit => destruct (d s) as [[tr s'] r] end
  end.
  reflexivity.
Qed.

(** C7: for a configuration that passes validation with [dry_run] set, the
    whole run is two info lines, the second one dumping the validated
    configuration; no request is sent and the tracker is left as it was. *)
Theorem dry_run_sends_nothing inputs input s :
  readInputs core = Normal inputs ->
  v_parse engine picklistMessage inputs = Normal input ->
  dry_run input = true ->
  exists tr,
    run tracker core engine now picklistMessage s = (tr, s, Normal tt)
    /\ tr = [Info (Text "Dry run enabled, dumping config:");
             Info (Json (DInputs input))]
    /\ requests tr = [].
Proof.
  intros Hi Hv Hd. rewrite run_unfold, (attempt_run _ _ s Hi Hv), Hd.
  eexists. split; [reflexivity|]. split; reflexivity.
Qed.

Lemma tagRequests_app tr1 tr2 :
  tagRequests (tr1 ++ tr2) = (tagRequests tr1 ++ tagRequests tr2)%list.
Proof. unfold tagRequests, requests. now rewrite flat_map_app, filter_app. Qed.

Lemma tagRequests_none tr :
  Forall (fun e => upsertEvent e = true) tr -> tagRequests tr = [].
Proof.
  induction 1 as [|e tr He _ IH]; [reflexivity|].
  change (e :: tr) with ([e] ++ tr)%list. rewrite tagRequests_app, IH.
  destruct e as [| | |c []]; try reflexivity; discriminate He.
Qed.

Lemma tagRequests_cons e tr :
  tagRequests (e :: tr) = (tagRequests [e] ++ tagRequests tr)%list.
Proof. exact (tagRequests_app [e] tr). Qed.

Ltac tag_count H :=
  rewrite (tagRequests_cons (Info _)), (tagRequests_cons (Debug _));
  rewrite ?tagRequests_app, H; reflexivity.

(** C8 ([setVersionOnIssues] as the spec describes it): once the upsert of a
    create_or_update run has returned a version, the tickets
    ["AB-1, AB-2"] make the run send a tagging request for ["AB-1"], then,
    unless that request failed, one for ["AB-2"], both with the identifier
    of the returned version, and no other tagging request; empty tickets
    make it send none. *)
Theorem tickets_are_tagged_in_order inputs s tr_u s1 version tr s' r :
  readInputs core = Normal inputs ->
  v_parse engine picklistMessage inputs = Normal inputs ->
  dry_run inputs = false ->
  operation inputs = "create_or_update" ->
  let client := jiraClient (email inputs) (api_token inputs) (subdomain inputs) in
  upsertProjectVersion tracker engine now client (jira_project inputs)
    (versionParams inputs) s = (tr_u, s1, Normal version) ->
  run tracker core engine now picklistMessage s = (tr, s', r) ->
  (tickets inputs = "AB-1, AB-2" ->
   tagRequests tr
   = SetFixVersion "AB-1" (v_id version)
       :: match fst (setFixVersion tracker client "AB-1" (v_id version) s1) with
          | Normal _ => [SetFixVersion "AB-2" (v_id version)]
          | Throw _ => []
          end)
  /\ (tickets inputs = "" -> tagRequests tr = []).
Proof.
  intros Hi Hv Hd Ho client Hu.
  pose proof (tagRequests_none _ (upsertProjectVersion_emits _ _ _ _ _ _ _ Hu)) as Hnone.
  rewrite run_unfold, (attempt_run _ _ s Hi Hv), Hd, Ho. cbv zeta.
  change (String.eqb "create_or_update" "create_or_update") with true. cbv iota.
  fold client. unfold createOrUpdate, bind. rewrite Hu.
  intros Hrun.
  split; intros Ht; rewrite Ht in Hrun.
  - change (truthy "AB-1, AB-2") with true in Hrun.
    change (map trim (split "," "AB-1, AB-2")) with ["AB-1"; "AB-2"] in Hrun.
    cbv iota in Hrun. cbn [setVersionOnIssues] in Hrun. unfold_M.
    destruct (setFixVersion tracker client "AB-1" (v_id version) s1)
      as [[[]|e1] s2]; cbn [fst].
    + destruct (setFixVersion tracker client "AB-2" (v_id version) s2)
        as [[[]|[n2 m2|d2|n2 m2 w2|d2 w2]] s3];
        injection Hrun as <- <- <-; tag_count Hnone.
    + destruct e1 as [n1 m1|d1|n1 m1 w1|d1 w1];
        injection Hrun as <- <- <-; tag_count Hnone.
  - change (truthy "") with false in Hrun. cbv iota in Hrun. unfold_M.
    injection Hrun as <- <- <-. tag_count Hnone.
Qed.

(** *** White space for a release date *)





End Runs.

(** ** The theorems on the tracker in memory *)

Lemma unreleased_payload_has_no_date_witness :
  p_released (datedParams false "2024-01-05") = false
  /\ Forall (fun p => p_releaseDate p = None)
       (upsertPayloads (traceOf (upsertOn (datedParams false "2024-01-05") nearTracker)))
  /\ (forall v,
        snd (upsertOn (datedParams false "2024-01-05") nearTracker) = Normal v ->
        exists p,
          upsertPayloads (traceOf (upsertOn (datedParams false "2024-01-05") nearTracker))
          = [p]).
Proof.
  split; [reflexivity|].
  apply (unreleased_payload_has_no_date memTracker isoOnly sampleNow sampleClient
           "AB" (datedParams false "2024-01-05") nearTracker
           _ (snd (fst (upsertOn (datedParams false "2024-01-05") nearTracker))) _).
  - reflexivity.
  - vm_compute. reflexivity.
Defined.

Lemma malformed_date_raises_witness :
  truthy "not-a-date" = true
  /\ Date_new isoOnly "not-a-date" = None
  /\ upsertOn (datedParams true "not-a-date") nearTracker
     = ([], nearTracker, Throw (ErrorObject "RangeError" "Invalid time value")).
Proof.
  split; [reflexivity|]. split; [reflexivity|].
  exact (proj1
           (malformed_date_raises memTracker isoOnly sampleNow sampleClient "AB"
              (datedParams true "not-a-date") "not-a-date" nearTracker
              eq_refl eq_refl eq_refl)).
Defined.

(** C3 as the claim has it fails: the date ["not-a-date"] does not parse,
    and the first statement of the upsert throws where an absent date would
    have gone on to the lookup. *)
Lemma malformed_date_is_not_absent :
  Date_new isoOnly "not-a-date" = None
  /\ normalizeReleaseDate isoOnly (Some "not-a-date") <> Normal None
  /\ normalizeReleaseDate isoOnly (Some "not-a-date")
     = Throw (ErrorObject "RangeError" "Invalid time value")
  /\ requests (traceOf (upsertOn (datedParams true "not-a-date") emptyTracker)) = []
  /\ requests (traceOf (upsertOn sampleParams emptyTracker))
     = [GetProjectVersionsPaginated "AB" "v1.2.0"; GetProject "AB";
        CreateVersion (set_releaseDate sampleParams (Some "2024-11-03")) "10000"].
Proof.
  split; [reflexivity|]. split; [discriminate|]. split; [reflexivity|].
  split; reflexivity.
Qed.

Lemma normalisation_is_idempotent_witness :
  Date_new isoOnly "+002024-02-29" = Some 1709164800000
  /\ exists day,
       isoDay (Date_new isoOnly "+002024-02-29") = Normal (Some day)
       /\ isoDay (Date_new isoOnly day) = Normal (Some day)
       /\ normalizeReleaseDate isoOnly (Some day) = Normal (Some day).
Proof.
  split; [reflexivity|].
  exact (normalisation_is_idempotent isoOnly "+002024-02-29" 1709164800000 eq_refl).
Defined.

Lemma lookup_returns_first_exact_match_witness :
  getProjectVersionsPaginated memTracker sampleClient "AB" "v1.2.0" nearTracker
  = (Normal {| values := Some (versions nearTracker) |}, nearTracker)
  /\ exists tr found,
       getProjectVersionByName memTracker sampleClient "AB" "v1.2.0" nearTracker
       = (tr, nearTracker, Normal found)
       /\ requests tr = [GetProjectVersionsPaginated "AB" "v1.2.0"]
       /\ match found with
          | Some v =>
              exists vs l1 l2,
                Some (versions nearTracker) = Some vs /\ vs = (l1 ++ v :: l2)%list
                /\ v_name v = Some "v1.2.0"
                /\ Forall (fun u => v_name u <> Some "v1.2.0") l1
          | None =>
              Some (versions nearTracker) = None
              \/ exists vs, Some (versions nearTracker) = Some vs
                            /\ Forall (fun u => v_name u <> Some "v1.2.0") vs
          end.
Proof.
  split; [reflexivity|].
  exact (lookup_returns_first_exact_match memTracker sampleClient "AB" "v1.2.0"
           nearTracker {| values := Some (versions nearTracker) |} nearTracker
           eq_refl).
Defined.

(** Among near matches the lookup picks the first exact one. *)
Example lookup_among_near_matches :
  snd (getProjectVersionByName memTracker sampleClient "AB" "v1.2.0" nearTracker)
  = Normal (Some (sampleVersion "10003" "v1.2.0"))
  /\ snd (getProjectVersionByName memTracker sampleClient "AB" "v1.2" nearTracker)
     = Normal None.
Proof. split; reflexivity. Qed.

Lemma delete_of_unknown_name_sends_no_delete_witness :
  findByName "v1.2" {| values := Some (versions nearTracker) |} = None
  /\ snd (deleteProjectVersionByName memTracker sampleClient "AB" "v1.2" nearTracker)
     = Throw (ErrorObject "Error" "Version v1.2 not found")
  /\ requests
       (traceOf (deleteProjectVersionByName memTracker sampleClient "AB" "v1.2"
                   nearTracker))
     = [GetProjectVersionsPaginated "AB" "v1.2"].
Proof.
  split; [reflexivity|].
  exact (proj1
           (delete_of_unknown_name_sends_no_delete memTracker sampleClient "AB"
              "v1.2" nearTracker
              (traceOf (deleteProjectVersionByName memTracker sampleClient "AB"
                          "v1.2" nearTracker))
              (snd (fst (deleteProjectVersionByName memTracker sampleClient "AB"
                           "v1.2" nearTracker)))
              (snd (deleteProjectVersionByName memTracker sampleClient "AB"
                      "v1.2" nearTracker))
              eq_refl)
           {| values := Some (versions nearTracker) |} nearTracker
           eq_refl eq_refl).
Defined.

(** A delete of a name the project has goes through, with the identifier of
    the first exact match. *)
Example delete_of_known_name :
  requests
    (traceOf (deleteProjectVersionByName memTracker sampleClient "AB" "v1.2.0"
                nearTracker))
  = [GetProjectVersionsPaginated "AB" "v1.2.0"; DeleteAndReplaceVersion "10003"].
Proof. reflexivity. Qed.

(** C4 as the claim has it fails, twice.  A tracker client that throws a
    plain object makes the [try] block throw, and the run ends without a
    failure signal.  A client that throws an Error holding a reference to
    itself makes the catch throw in [JSON.stringify]: the TypeError escapes
    the run, again with no failure signal. *)
Lemma thrown_object_gives_no_failure_signal :
  (snd (attempt memTracker (coreOf sampleConfig) isoOnly sampleNow plainMessage
          downTracker)
   = Throw (OtherValue "status 401")
   /\ snd (runOn sampleConfig downTracker) = Normal tt
   /\ existsb isSetFailed (traceOf (runOn sampleConfig downTracker)) = false)
  /\ (snd (attempt cyclicTracker (coreOf sampleConfig) isoOnly sampleNow
             plainMessage tt)
      = Throw cyclicError
      /\ snd (run cyclicTracker (coreOf sampleConfig) isoOnly sampleNow
                plainMessage tt)
         = Throw (ErrorObject "TypeError" "Converting circular structure to JSON")
      /\ existsb isSetFailed
           (fst (fst (run cyclicTracker (coreOf sampleConfig) isoOnly sampleNow
                        plainMessage tt)))
         = false).
Proof. repeat split; reflexivity. Qed.

Lemma run_reports_errors_only_witness :
  snd (attempt memTracker (coreOf sampleConfig) isoOnly sampleNow plainMessage
         noIssueTracker)
  = Throw (ErrorObject "Error" "Issue does not exist")
  /\ exists tr,
       runOn sampleConfig noIssueTracker
       = (tr,
          snd (fst (attempt memTracker (coreOf sampleConfig) isoOnly sampleNow
                      plainMessage noIssueTracker)),
          Normal tt)
       /\ Forall (fun ev => isSetFailed ev = false)
            (fst (fst (attempt memTracker (coreOf sampleConfig) isoOnly sampleNow
                         plainMessage noIssueTracker)))
       /\ tr
          = (fst (fst (attempt memTracker (coreOf sampleConfig) isoOnly sampleNow
                         plainMessage noIssueTracker))
             ++ [Debug (Json (DThrown (ErrorObject "Error" "Issue does not exist")));
                 SetFailed "Issue does not exist"])%list.
Proof.
  split; [reflexivity|].
  assert (E : attempt memTracker (coreOf sampleConfig) isoOnly sampleNow
                plainMessage noIssueTracker
              = (fst (fst (attempt memTracker (coreOf sampleConfig) isoOnly
                             sampleNow plainMessage noIssueTracker)),
                 snd (fst (attempt memTracker (coreOf sampleConfig) isoOnly
                             sampleNow plainMessage noIssueTracker)),
                 Throw (ErrorObject "Error" "Issue does not exist")))
    by (vm_compute; reflexivity).
  exact (run_reports_errors_only memTracker (coreOf sampleConfig) isoOnly sampleNow
           plainMessage noIssueTracker _ _ _ E eq_refl).
Defined.

(** An instance of Error thrown by the tracker does reach the failure
    signal. *)
Example thrown_error_gives_failure_signal :
  filter isSetFailed (traceOf (runOn sampleConfig noIssueTracker))
  = [SetFailed "Issue does not exist"].
Proof. reflexivity. Qed.

Lemma dry_run_sends_nothing_witness :
  readInputs (coreOf (dryRun sampleConfig)) = Normal (dryRun sampleConfig)
  /\ v_parse isoOnly plainMessage (dryRun sampleConfig) = Normal (dryRun sampleConfig)
  /\ exists tr,
       runOn (dryRun sampleConfig) nearTracker = (tr, nearTracker, Normal tt)
       /\ tr = [Info (Text "Dry run enabled, dumping config:");
                Info (Json (DInputs (dryRun sampleConfig)))]
       /\ requests tr = [].
Proof.
  split; [reflexivity|]. split; [reflexivity|].
  exact (dry_run_sends_nothing memTracker (coreOf (dryRun sampleConfig)) isoOnly
           sampleNow plainMessage (dryRun sampleConfig) (dryRun sampleConfig)
           nearTracker eq_refl eq_refl eq_refl).
Defined.

Lemma tickets_are_tagged_in_order_witness :
  readInputs (coreOf sampleConfig) = Normal sampleConfig
  /\ v_parse isoOnly plainMessage sampleConfig = Normal sampleConfig
  /\ snd (upsertOn (versionParams sampleConfig) emptyTracker)
     = Normal (versionOf "10001" (set_releaseDate sampleParams (Some "2024-11-03")))
  /\ tagRequests (traceOf (runOn sampleConfig emptyTracker))
     = [SetFixVersion "AB-1" (Some "10001"); SetFixVersion "AB-2" (Some "10001")]
  /\ tagRequests (traceOf (runOn sampleConfig noIssueTracker))
     = [SetFixVersion "AB-1" (Some "10001")]
  /\ tagRequests (traceOf (runOn (withTickets sampleConfig "") emptyTracker)) = [].
Proof.
  split; [reflexivity|]. split; [reflexivity|]. split; [reflexivity|].
  split; [|split].
  - exact (proj1
             (tickets_are_tagged_in_order memTracker (coreOf sampleConfig) isoOnly
                sampleNow plainMessage sampleConfig emptyTracker
                (traceOf (upsertOn (versionParams sampleConfig) emptyTracker))
                (snd (fst (upsertOn (versionParams sampleConfig) emptyTracker)))
                (versionOf "10001" (set_releaseDate sampleParams (Some "2024-11-03")))
                (traceOf (runOn sampleConfig emptyTracker))
                (snd (fst (runOn sampleConfig emptyTracker)))
                (snd (runOn sampleConfig emptyTracker))
                eq_refl eq_refl eq_refl eq_refl eq_refl eq_refl)
             eq_refl).
  - exact (proj1
             (tickets_are_tagged_in_order memTracker (coreOf sampleConfig) isoOnly
                sampleNow plainMessage sampleConfig noIssueTracker
                (traceOf (upsertOn (versionParams sampleConfig) noIssueTracker))
                (snd (fst (upsertOn (versionParams sampleConfig) noIssueTracker)))
                (versionOf "10001" (set_releaseDate sampleParams (Some "2024-11-03")))
                (traceOf (runOn sampleConfig noIssueTracker))
                (snd (fst (runOn sampleConfig noIssueTracker)))
                (snd (runOn sampleConfig noIssueTracker))
                eq_refl eq_refl eq_refl eq_refl eq_refl eq_refl)
             eq_refl).
  - exact (proj2
             (tickets_are_tagged_in_order memTracker
                (coreOf (withTickets sampleConfig "")) isoOnly
                sampleNow plainMessage (withTickets sampleConfig "") emptyTracker
                (traceOf (upsertOn (versionParams sampleConfig) emptyTracker))
                (snd (fst (upsertOn (versionParams sampleConfig) emptyTracker)))
                (versionOf "10001" (set_releaseDate sampleParams (Some "2024-11-03")))
                (traceOf (runOn (withTickets sampleConfig "") emptyTracker))
                (snd (fst (runOn (withTickets sampleConfig "") emptyTracker)))
                (snd (runOn (withTickets sampleConfig "") emptyTracker))
                eq_refl eq_refl eq_refl eq_refl eq_refl eq_refl)
             eq_refl).
Defined.


(** ** Further properties of the upsert and of the entry point *)

Section Payload.

Variable engine : string -> option Z.
Variable now : Z.

Lemma prepareUpsertParams_dated params x t :
  p_released params = true ->
  p_releaseDate params = Some x ->
  truthy x = true ->
  Date_new engine x = Some t ->
  prepareUpsertParams engine now params
  = Normal (set_releaseDate params (Some (dateString t))).
Proof.
  intros Hr Hd Hx Ht. pose proof (Date_parse_valid _ _ _ Ht) as Hv.
  unfold prepareUpsertParams. rewrite Hr, Hd. cbn [truthy_opt]. rewrite Hx.
  cbn [andb negb]. cbv beta iota zeta. rewrite Hx.
  rewrite (isoDay_Date_new engine x t Ht). cbv beta iota zeta.
  rewrite truthy_dateString, (isoDay_dateString engine t Hv). reflexivity.
Qed.

Lemma prepareUpsertParams_undated params x :
  p_released params = true ->
  p_releaseDate params = Some x ->
  truthy x = true ->
  Date_new engine x = None ->
  prepareUpsertParams engine now params
  = Throw (ErrorObject "RangeError" "Invalid time value").
Proof.
  intros Hr Hd Hx Ht.
  unfold prepareUpsertParams. rewrite Hr, Hd. cbn [truthy_opt]. rewrite Hx.
  cbn [andb negb]. cbv beta iota zeta. rewrite Hx, Ht. reflexivity.
Qed.

Lemma prepareUpsertParams_clock_invalid params :
  p_released params = true ->
  truthy_opt (p_releaseDate params) = false ->
  validTime now = false ->
  prepareUpsertParams engine now params
  = Throw (ErrorObject "RangeError" "Invalid time value").
Proof.
  intros Hr Hd Hn. unfold prepareUpsertParams, Date_now, TimeClip.
  rewrite Hr, Hd, Hn. reflexivity.
Qed.

(** X1: the object [prepareUpsertParams] returns keeps the name, the
    description and both flags of its argument, and its release date is
    there exactly when [released] is set, and then is the ISO day of a
    valid time value. *)
Theorem prepared_date_follows_released params q :
  prepareUpsertParams engine now params = Normal q ->
  p_name q = p_name params
  /\ p_description q = p_description params
  /\ p_released q = p_released params
  /\ p_archived q = p_archived params
  /\ if p_released q
     then exists t, validTime t = true /\ p_releaseDate q = Some (dateString t)
     else p_releaseDate q = None.
Proof.
  intros H.
  destruct (p_released params) eqn:Hr.
  - destruct (truthy_opt (p_releaseDate params)) eqn:Hd.
    + destruct (p_releaseDate params) as [x|] eqn:Hx; [|discriminate Hd].
      cbn [truthy_opt] in Hd.
      destruct (Date_new engine x) as [t|] eqn:Ht.
      * rewrite (prepareUpsertParams_dated params x t Hr Hx Hd Ht) in H.
        injection H as <-. cbn. rewrite Hr. repeat split.
        exists t. split; [exact (Date_parse_valid _ _ _ Ht) | reflexivity].
      * rewrite (prepareUpsertParams_undated params x Hr Hx Hd Ht) in H.
        discriminate H.
    + destruct (validTime now) eqn:Hn.
      * rewrite (prepareUpsertParams_stamps engine now params Hr Hd Hn) in H.
        injection H as <-. cbn. rewrite Hr. repeat split.
        exists now. split; [exact Hn | reflexivity].
      * rewrite (prepareUpsertParams_clock_invalid params Hr Hd Hn) in H.
        discriminate H.
  - rewrite (prepareUpsertParams_unreleased engine now params Hr) in H.
    injection H as <-. cbn. rewrite Hr. repeat split.
Qed.

(** X2: preparing a prepared object changes nothing. *)
Theorem prepareUpsertParams_is_idempotent params q :
  prepareUpsertParams engine now params = Normal q ->
  prepareUpsertParams engine now q = Normal q.
Proof.
  intros H.
  destruct (prepared_date_follows_released params q H)
    as (Hn & Hde & Hr & Ha & Hd).
  destruct (p_released q) eqn:Hq.
  - destruct Hd as (t & Hv & Hd).
    assert (Ht : Date_new engine (dateString t) = Some (Day t * msPerDay))
      by exact (Date_parse_dateString engine t Hv).
    rewrite (prepareUpsertParams_dated q (dateString t) _ Hq Hd
               (truthy_dateString t) Ht).
    rewrite dateString_midnight. rewrite <- Hd.
    destruct q; reflexivity.
  - rewrite (prepareUpsertParams_unreleased engine now q Hq). rewrite <- Hd.
    destruct q; reflexivity.
Qed.

(** X3: the day a normalisation yields is the UTC day of the instant the
    string stands for: it parses back to the midnight at or before that
    instant, less than a day away. *)
Theorem normalisation_truncates_to_utc_day x t :
  Date_new engine x = Some t ->
  exists day,
    isoDay (Date_new engine x) = Normal (Some day)
    /\ Date_new engine day = Some (Day t * msPerDay)
    /\ Day t * msPerDay <= t < Day t * msPerDay + msPerDay.
Proof.
  intros H. pose proof (Date_parse_valid _ _ _ H) as Hv.
  exists (dateString t). split; [now apply isoDay_Date_new|].
  split; [exact (Date_parse_dateString engine t Hv)|].
  unfold Day, msPerDay. zdiv.
Qed.

End Payload.

Lemma prepared_date_follows_released_witness :
  prepareUpsertParams isoOnly sampleNow (datedParams true "+002024-02-29")
  = Normal (datedParams true "2024-02-29")
  /\ p_released (datedParams true "2024-02-29") = true
  /\ exists t, validTime t = true
               /\ p_releaseDate (datedParams true "2024-02-29") = Some (dateString t).
Proof.
  split; [reflexivity|]. split; [reflexivity|].
  exact (proj2 (proj2 (proj2 (proj2
           (prepared_date_follows_released isoOnly sampleNow
              (datedParams true "+002024-02-29") (datedParams true "2024-02-29")
              eq_refl))))).
Defined.

Lemma prepareUpsertParams_is_idempotent_witness :
  prepareUpsertParams isoOnly sampleNow sampleParams
  = Normal (datedParams true "2024-11-03")
  /\ prepareUpsertParams isoOnly sampleNow (datedParams true "2024-11-03")
     = Normal (datedParams true "2024-11-03").
Proof.
  split; [reflexivity|].
  exact (prepareUpsertParams_is_idempotent isoOnly sampleNow sampleParams
           (datedParams true "2024-11-03") eq_refl).
Defined.

Lemma normalisation_truncates_to_utc_day_witness :
  Date_new (fun _ => Some sampleNow) "Sun, 03 Nov 2024 08:00:00 GMT"
  = Some sampleNow
  /\ exists day,
       isoDay (Date_new (fun _ => Some sampleNow) "Sun, 03 Nov 2024 08:00:00 GMT")
       = Normal (Some day)
       /\ Date_new (fun _ => Some sampleNow) day = Some 1730592000000
       /\ 1730592000000 <= sampleNow < 1730592000000 + msPerDay.
Proof.
  split; [reflexivity|].
  exact (normalisation_truncates_to_utc_day (fun _ => Some sampleNow)
           "Sun, 03 Nov 2024 08:00:00 GMT" sampleNow eq_refl).
Defined.

Section Reconciler.

Context {S : Type}.
Variable tracker : Tracker S.
Variable engine : string -> option Z.
Variable now : Z.

Ltac unfold_M :=
  cbv beta iota delta [bind ret throw lift emit send core_info core_debug
                       core_setFailed] in *.

Lemma updateProjectVersion_run client versionId params s :
  updateProjectVersion tracker engine now client versionId params s =
  match prepareUpsertParams engine now params with
  | Normal p =>
      match updateVersion tracker client p versionId s with
      | (a, s') =>
          ([Info (Text ("Updating project version " ++ p_name p ++ "..."));
            Debug (Json (DParams p));
            Sent client (UpdateVersion p versionId)], s', a)
      end
  | Throw e => ([], s, Throw e)
  end.
Proof.
  unfold updateProjectVersion. unfold_M.
  destruct (prepareUpsertParams engine now params) as [p|e]; [|reflexivity].
  destruct (updateVersion _ _ _ _ _) as [a s']. reflexivity.
Qed.

Lemma createProjectVersion_run client projectKey params s :
  createProjectVersion tracker engine now client projectKey params s =
  match getProject tracker client projectKey s with
  | (Normal project, s1) =>
      match prepareUpsertParams engine now params with
      | Normal p =>
          match createVersion tracker client p (project_id project) s1 with
          | (a, s2) =>
              ([Sent client (GetProject projectKey);
                Debug (Json (DProject project));
                Info (Text ("Creating project version " ++ p_name p ++ "..."));
                Debug (Json (DParams p));
                Sent client (CreateVersion p (project_id project))], s2, a)
          end
      | Throw e =>
          ([Sent client (GetProject projectKey); Debug (Json (DProject project))],
           s1, Throw e)
      end
  | (Throw e, s1) => ([Sent client (GetProject projectKey)], s1, Throw e)
  end.
Proof.
  unfold createProjectVersion, getProjectId. unfold_M.
  destruct (getProject _ _ _ _) as [[project|e] s1]; [|reflexivity].
  destruct (prepareUpsertParams engine now params) as [p|e]; [|reflexivity].
  destruct (createVersion _ _ _ _ _) as [a s2]. reflexivity.
Qed.

Lemma upsertProjectVersion_run client projectKey params s :
  upsertProjectVersion tracker engine now client projectKey params s =
  match normalizeReleaseDate engine (p_releaseDate params) with
  | Normal d =>
      match getProjectVersionByName tracker client projectKey (p_name params) s with
      | (tr, s1, Normal found) =>
          match
            match usableId found with
            | Some i =>
                updateProjectVersion tracker engine now client i
                  (set_releaseDate params d) s1
            | None =>
                createProjectVersion tracker engine now client projectKey
                  (set_releaseDate params d) s1
            end
          with
          | (tr2, s2, r) => ((tr ++ tr2)%list, s2, r)
          end
      | (tr, s1, Throw e) => (tr, s1, Throw e)
      end
  | Throw e => ([], s, Throw e)
  end.
Proof.
  unfold upsertProjectVersion. unfold bind at 1, lift at 1.
  destruct (normalizeReleaseDate engine (p_releaseDate params)) as [d|e];
    [|reflexivity].
  unfold bind at 1. cbn [p_name set_releaseDate].
  destruct (getProjectVersionByName _ _ _ _ _) as [[tr s1] [found|e]];
    [|reflexivity].
  unfold usableId.
  destruct found as [v|]; [destruct (v_id v) as [i|]; [destruct (truthy i)|]|];
    match goal with
    | |- (let (_, _) := ?m in _) = _ => destruct m as [[tr2 s2] r]
    end; reflexivity.
Qed.

Lemma normalizeReleaseDate_throws d e :
  normalizeReleaseDate engine d = Throw e ->
  e = ErrorObject "RangeError" "Invalid time value".
Proof.
  unfold normalizeReleaseDate.
  destruct d as [x|]; [|discriminate].
  destruct (truthy x); [|discriminate].
  destruct (Date_new engine x) as [t|].
  - rewrite isoDay_valid. discriminate.
  - cbn. congruence.
Qed.

(** X4: when the lookup finds a version whose identifier is usable, the
    upsert updates it under that identifier and looks up no project; the
    listing and the update are its only requests, the answer to the update is
    its result; when the date handling of [prepareUpsertParams] throws, the
    listing stays its only request. *)
Theorem upsert_updates_a_found_version client projectKey params s d page s1 i :
  normalizeReleaseDate engine (p_releaseDate params) = Normal d ->
  getProjectVersionsPaginated tracker client projectKey (p_name params) s
    = (Normal page, s1) ->
  usableId (findByName (p_name params) page) = Some i ->
  exists tr,
    match prepareUpsertParams engine now (set_releaseDate params d) with
    | Normal p =>
        upsertProjectVersion tracker engine now client projectKey params s
        = (tr, snd (updateVersion tracker client p i s1),
           fst (updateVersion tracker client p i s1))
        /\ requests tr
           = [GetProjectVersionsPaginated projectKey (p_name params);
              UpdateVersion p i]
    | Throw e =>
        upsertProjectVersion tracker engine now client projectKey params s
        = (tr, s1, Throw e)
        /\ requests tr = [GetProjectVersionsPaginated projectKey (p_name params)]
    end.
Proof.
  intros Hd Hl Hi.
  rewrite upsertProjectVersion_run, Hd, getProjectVersionByName_run, Hl, Hi.
  rewrite updateProjectVersion_run.
  destruct (prepareUpsertParams engine now (set_releaseDate params d)) as [p|e].
  - destruct (updateVersion tracker client p i s1) as [a s2].
    eexists. split; reflexivity.
  - eexists. split; reflexivity.
Qed.

(** X5: when the lookup finds nothing, or a version without a usable
    identifier, the upsert asks for the project and creates the version
    under the project's identifier; a failing project request, or date
    handling that throws, ends it before any create. *)
Theorem upsert_creates_when_nothing_usable_is_found
    client projectKey params s d page s1 :
  normalizeReleaseDate engine (p_releaseDate params) = Normal d ->
  getProjectVersionsPaginated tracker client projectKey (p_name params) s
    = (Normal page, s1) ->
  usableId (findByName (p_name params) page) = None ->
  exists tr,
    match getProject tracker client projectKey s1 with
    | (Normal project, s2) =>
        match prepareUpsertParams engine now (set_releaseDate params d) with
        | Normal p =>
            upsertProjectVersion tracker engine now client projectKey params s
            = (tr, snd (createVersion tracker client p (project_id project) s2),
               fst (createVersion tracker client p (project_id project) s2))
            /\ requests tr
               = [GetProjectVersionsPaginated projectKey (p_name params);
                  GetProject projectKey;
                  CreateVersion p (project_id project)]
        | Throw e =>
            upsertProjectVersion tracker engine now client projectKey params s
            = (tr, s2, Throw e)
            /\ requests tr
               = [GetProjectVersionsPaginated projectKey (p_name params);
                  GetProject projectKey]
        end
    | (Throw e, s2) =>
        upsertProjectVersion tracker engine now client projectKey params s
        = (tr, s2, Throw e)
        /\ requests tr
           = [GetProjectVersionsPaginated projectKey (p_name params);
              GetProject projectKey]
    end.
Proof.
  intros Hd Hl Hi.
  rewrite upsertProjectVersion_run, Hd, getProjectVersionByName_run, Hl, Hi.
  rewrite createProjectVersion_run.
  destruct (getProject tracker client projectKey s1) as [[project|e] s2].
  - destruct (prepareUpsertParams engine now (set_releaseDate params d)) as [p|e].
    + destruct (createVersion tracker client p (project_id project) s2) as [a s3].
      eexists. split; reflexivity.
    + eexists. split; reflexivity.
  - eexists. split; reflexivity.
Qed.

(** X6: the requests of an upsert have one of five shapes: none (the
    release date did not parse), the listing alone, the listing and an
    update, the listing and the project request, or these two and a create.
    No request is sent twice, a create never comes with an update, and in
    the shapes without create or update the upsert has thrown. *)
Theorem upsert_request_shapes client projectKey params s tr s' r :
  upsertProjectVersion tracker engine now client projectKey params s = (tr, s', r) ->
  let listing := GetProjectVersionsPaginated projectKey (p_name params) in
  (requests tr = [] /\ r = Throw (ErrorObject "RangeError" "Invalid time value"))
  \/ (requests tr = [listing] /\ exists e, r = Throw e)
  \/ (exists p i, requests tr = [listing; UpdateVersion p i])
  \/ (requests tr = [listing; GetProject projectKey] /\ exists e, r = Throw e)
  \/ (exists p projectId,
        requests tr = [listing; GetProject projectKey; CreateVersion p projectId]).
Proof.
  intros H listing. subst listing.
  rewrite upsertProjectVersion_run in H.
  destruct (normalizeReleaseDate engine (p_releaseDate params)) as [d|e] eqn:Hd.
  2:{ injection H as <- <- <-. left.
      split; [reflexivity|]. f_equal. exact (normalizeReleaseDate_throws _ _ Hd). }
  rewrite getProjectVersionByName_run in H.
  destruct (getProjectVersionsPaginated _ _ _ _ _) as [[page|e] s1].
  2:{ injection H as <- <- <-. right. left. split; [reflexivity | eauto]. }
  destruct (usableId (findByName (p_name params) page)) as [i|].
  - rewrite updateProjectVersion_run in H.
    destruct (prepareUpsertParams engine now (set_releaseDate params d)) as [p|e].
    + destruct (updateVersion tracker client p i s1) as [a s2].
      injection H as <- <- <-. right. right. left. exists p, i. reflexivity.
    + injection H as <- <- <-. right. left. split; [reflexivity | eauto].
  - rewrite createProjectVersion_run in H.
    destruct (getProject tracker client projectKey s1) as [[project|e] s2].
    + destruct (prepareUpsertParams engine now (set_releaseDate params d)) as [p|e].
      * destruct (createVersion tracker client p (project_id project) s2) as [a s3].
        injection H as <- <- <-. right. right. right. right.
        exists p, (project_id project). reflexivity.
      * injection H as <- <- <-. right. right. right. left.
        split; [reflexivity | eauto].
    + injection H as <- <- <-. right. right. right. left.
      split; [reflexivity | eauto].
Qed.

(** X7: with [released = true] and a release date the Date constructor
    accepts, every create and every update the upsert sends carries the UTC
    day of that date, not the day of the clock; an upsert that returns has
    sent one such request. *)
Theorem released_payload_keeps_supplied_day client projectKey params x t s tr s' r :
  p_released params = true ->
  p_releaseDate params = Some x ->
  truthy x = true ->
  Date_new engine x = Some t ->
  upsertProjectVersion tracker engine now client projectKey params s = (tr, s', r) ->
  Forall (fun p => p_releaseDate p = Some (dateString t)) (upsertPayloads tr)
  /\ (forall v, r = Normal v -> exists p, upsertPayloads tr = [p]).
Proof.
  intros Hr Hd Hx Ht H. pose proof (Date_parse_valid _ _ _ Ht) as Hv.
  destruct (upsertProjectVersion_payloads _ _ _ _ _ _ _ _ _ _ H)
    as [[Hnil Hf]|(d & p & Hd' & Hp & Hl)].
  - rewrite Hnil. split; [constructor|]. intros v E. destruct (Hf v E).
  - rewrite Hl. split; [|eauto].
    unfold normalizeReleaseDate in Hd'.
    rewrite Hd, Hx, (isoDay_Date_new engine x t Ht) in Hd'. injection Hd' as <-.
    rewrite (prepareUpsertParams_dated engine now _ (dateString t) (Day t * msPerDay))
      in Hp; try reflexivity.
    + injection Hp as <-. rewrite dateString_midnight.
      constructor; [reflexivity | constructor].
    + exact Hr.
    + apply truthy_dateString.
    + exact (Date_parse_dateString engine t Hv).
Qed.

(** X8: a throw of the listing request ends the lookup, the delete and the
    upsert alike: each throws that same value, in the state the tracker
    left, having sent the listing and nothing else. *)
Theorem listing_failure_propagates client projectKey params s e s1 :
  getProjectVersionsPaginated tracker client projectKey (p_name params) s
    = (Throw e, s1) ->
  (exists tr,
     getProjectVersionByName tracker client projectKey (p_name params) s
     = (tr, s1, Throw e)
     /\ requests tr = [GetProjectVersionsPaginated projectKey (p_name params)])
  /\ (exists tr,
        deleteProjectVersionByName tracker client projectKey (p_name params) s
        = (tr, s1, Throw e)
        /\ requests tr = [GetProjectVersionsPaginated projectKey (p_name params)])
  /\ (forall d,
        normalizeReleaseDate engine (p_releaseDate params) = Normal d ->
        exists tr,
          upsertProjectVersion tracker engine now client projectKey params s
          = (tr, s1, Throw e)
          /\ requests tr
             = [GetProjectVersionsPaginated projectKey (p_name params)]).
Proof.
  intros H. split; [|split].
  - rewrite getProjectVersionByName_run, H. eexists. split; reflexivity.
  - rewrite deleteProjectVersionByName_run, getProjectVersionByName_run, H.
    eexists. split; reflexivity.
  - intros d Hd.
    rewrite upsertProjectVersion_run, Hd, getProjectVersionByName_run, H.
    eexists. split; reflexivity.
Qed.

(** X9: once the listing has returned a page, the delete goes by the usable
    identifier of the version the lookup finds: with one, it sends the
    delete request for it and ends as that request ends; without one (no
    version of that name, or one whose identifier is missing or empty) it
    throws the not-found Error and sends no delete. *)
Theorem delete_goes_by_usable_id client projectKey name s page s1 :
  getProjectVersionsPaginated tracker client projectKey name s = (Normal page, s1) ->
  exists tr,
    match usableId (findByName name page) with
    | Some i =>
        deleteProjectVersionByName tracker client projectKey name s
        = (tr, snd (deleteAndReplaceVersion tracker client i s1),
           fst (deleteAndReplaceVersion tracker client i s1))
        /\ requests tr
           = [GetProjectVersionsPaginated projectKey name;
              DeleteAndReplaceVersion i]
    | None =>
        deleteProjectVersionByName tracker client projectKey name s
        = (tr, s1, Throw (ErrorObject "Error" ("Version " ++ name ++ " not found")))
        /\ requests tr = [GetProjectVersionsPaginated projectKey name]
    end.
Proof.
  intros H.
  rewrite deleteProjectVersionByName_run, getProjectVersionByName_run, H.
  unfold usableId.
  destruct (findByName name page) as [v|]; [|eexists; split; reflexivity].
  destruct (v_id v) as [i|]; [|eexists; split; reflexivity].
  destruct (truthy i); [|eexists; split; reflexivity].
  destruct (deleteAndReplaceVersion tracker client i s1) as [a s2].
  eexists. split; reflexivity.
Qed.

End Reconciler.

Section Stamp.

Context {S : Type}.
Variable tracker : Tracker S.
Variable engine : string -> option Z.
Variable now : Z.

(** C2: with [released = true] and no release date supplied,
    [prepareUpsertParams] returns the parameters with the UTC day of the
    clock for release date; every create and every update the upsert sends
    carries that day, an upsert that returns has sent one such request, and
    an upsert whose listing is answered and which finds a usable identifier
    or has its project request answered sends exactly one create or update,
    with that day; the day reads YYYY-MM-DD while the year has four
    digits. *)
Theorem released_payload_is_stamped_today client projectKey params s tr s' r :
  p_released params = true ->
  truthy_opt (p_releaseDate params) = false ->
  validTime now = true ->
  upsertProjectVersion tracker engine now client projectKey params s = (tr, s', r) ->
  prepareUpsertParams engine now params
  = Normal (set_releaseDate params (Some (dateString now)))
  /\ Forall (fun p => p_releaseDate p = Some (dateString now)) (upsertPayloads tr)
  /\ (forall v, r = Normal v -> exists p, upsertPayloads tr = [p])
  /\ (forall page s1,
        getProjectVersionsPaginated tracker client projectKey (p_name params) s
          = (Normal page, s1) ->
        usableId (findByName (p_name params) page) <> None
        \/ (exists project s2,
              getProject tracker client projectKey s1 = (Normal project, s2)) ->
        upsertPayloads tr = [set_releaseDate params (Some (dateString now))])
  /\ (0 <= YearFromTime now <= 9999 ->
      dateString now
      = decimal 4 (YearFromTime now) ++ "-" ++ decimal 2 (MonthFromTime now + 1)
          ++ "-" ++ decimal 2 (DateFromTime now)).
Proof.
  intros Hr Hd Hn H.
  assert (Hprep : forall q, p_released q = true ->
            truthy_opt (p_releaseDate q) = false ->
            prepareUpsertParams engine now q
            = Normal (set_releaseDate q (Some (dateString now)))).
  { intros q Hq1 Hq2. now apply prepareUpsertParams_stamps. }
  assert (Hnorm : normalizeReleaseDate engine (p_releaseDate params) = Normal None)
    by now apply normalizeReleaseDate_absent.
  split; [now apply Hprep|]. split; [|split; [|split]].
  - destruct (upsertProjectVersion_payloads _ _ _ _ _ _ _ _ _ _ H)
      as [[Hnil _]|(d & p & Hd' & Hp & Hl)].
    + rewrite Hnil. constructor.
    + rewrite Hnorm in Hd'. injection Hd' as <-.
      rewrite Hprep in Hp by (try exact Hr; reflexivity).
      injection Hp as <-. rewrite Hl. constructor; [reflexivity | constructor].
  - intros v Hv.
    destruct (upsertProjectVersion_payloads _ _ _ _ _ _ _ _ _ _ H)
      as [[_ Hf]|(d & p & _ & _ & Hl)]; [destruct (Hf v Hv) | eauto].
  - intros page s1 Hl Hans.
    rewrite upsertProjectVersion_run, Hnorm, getProjectVersionByName_run, Hl in H.
    destruct (usableId (findByName (p_name params) page)) as [i|].
    + rewrite updateProjectVersion_run, Hprep in H by (try exact Hr; reflexivity).
      destruct (updateVersion tracker client _ i s1) as [a s2].
      injection H as <- <- <-. reflexivity.
    + destruct Hans as [Hans|(project & s2 & Hproj)]; [congruence|].
      rewrite createProjectVersion_run, Hproj, Hprep in H
        by (try exact Hr; reflexivity).
      destruct (createVersion tracker client _ (project_id project) s2) as [a s3].
      injection H as <- <- <-. reflexivity.
  - intros [Hy1 Hy2]. unfold dateString, yearString.
    destruct (Z.leb_spec 0 (YearFromTime now)); [|lia].
    destruct (Z.leb_spec (YearFromTime now) 9999); [|lia].
    reflexivity.
Qed.

End Stamp.

Lemma released_payload_is_stamped_today_witness :
  p_released sampleParams = true
  /\ truthy_opt (p_releaseDate sampleParams) = false
  /\ validTime sampleNow = true
  /\ prepareUpsertParams isoOnly sampleNow sampleParams
     = Normal (datedParams true "2024-11-03")
  /\ upsertPayloads (traceOf (upsertOn sampleParams nearTracker))
     = [datedParams true "2024-11-03"]
  /\ upsertPayloads (traceOf (upsertOn sampleParams emptyTracker))
     = [datedParams true "2024-11-03"].
Proof.
  split; [reflexivity|]. split; [reflexivity|]. split; [reflexivity|].
  pose (H := released_payload_is_stamped_today memTracker isoOnly sampleNow
               sampleClient "AB" sampleParams nearTracker
               (traceOf (upsertOn sampleParams nearTracker))
               (snd (fst (upsertOn sampleParams nearTracker)))
               (snd (upsertOn sampleParams nearTracker))
               eq_refl eq_refl eq_refl eq_refl).
  pose (H0 := released_payload_is_stamped_today memTracker isoOnly sampleNow
                sampleClient "AB" sampleParams emptyTracker
                (traceOf (upsertOn sampleParams emptyTracker))
                (snd (fst (upsertOn sampleParams emptyTracker)))
                (snd (upsertOn sampleParams emptyTracker))
                eq_refl eq_refl eq_refl eq_refl).
  split; [exact (proj1 H)|]. split.
  - refine (proj1 (proj2 (proj2 (proj2 H)))
              {| values := Some (versions nearTracker) |} nearTracker eq_refl _).
    left. discriminate.
  - refine (proj1 (proj2 (proj2 (proj2 H0)))
              {| values := Some (versions emptyTracker) |} emptyTracker eq_refl _).
    right. exists {| project_id := "10000" |}, emptyTracker. reflexivity.
Defined.

Section EntryPoint.

Context {S : Type}.
Variable tracker : Tracker S.
Variable core : ActionsCore.
Variable engine : string -> option Z.
Variable now : Z.
Variable picklistMessage : string -> string.

Lemma attempt_unread e s :
  readInputs core = Throw e ->
  attempt tracker core engine now picklistMessage s = ([], s, Throw e).
Proof. intros H. unfold attempt, bind, lift. rewrite H. reflexivity. Qed.

Lemma attempt_invalid inputs e s :
  readInputs core = Normal inputs ->
  v_parse engine picklistMessage inputs = Throw e ->
  attempt tracker core engine now picklistMessage s = ([], s, Throw e).
Proof.
  intros Hi Hv. unfold attempt, perform, bind, lift. rewrite Hi, Hv. reflexivity.
Qed.

Lemma v_parse_inv inputs input :
  v_parse engine picklistMessage inputs = Normal input ->
  input = inputs
  /\ (operation inputs = "create_or_update" \/ operation inputs = "delete")
  /\ releaseDateCheck engine inputs = true.
Proof.
  unfold v_parse, inPicklist, picklist. cbn [existsb].
  destruct (String.eqb (operation inputs) "create_or_update") eqn:E1;
    [|destruct (String.eqb (operation inputs) "delete") eqn:E2];
    cbn [orb]; try discriminate;
    (destruct (releaseDateCheck engine inputs); [|discriminate]);
    intros [= <-]; (split; [reflexivity|]); (split; [|reflexivity]).
  - left. now apply String.eqb_eq.
  - right. now apply String.eqb_eq.
Qed.

(** X10: a run sends a request only when the inputs were read, passed
    validation unchanged and do not ask for a dry run; the operation is then
    one of the two of the picklist. *)
Theorem requests_need_a_valid_live_configuration s tr s' r q :
  run tracker core engine now picklistMessage s = (tr, s', r) ->
  In q (requests tr) ->
  exists inputs,
    readInputs core = Normal inputs
    /\ v_parse engine picklistMessage inputs = Normal inputs
    /\ dry_run inputs = false
    /\ (operation inputs = "create_or_update" \/ operation inputs = "delete").
Proof.
  rewrite run_unfold.
  destruct (readInputs core) as [inputs|e] eqn:Hi.
  2:{ rewrite (attempt_unread e s Hi). destruct e; intros [= <- <- <-] []. }
  destruct (v_parse engine picklistMessage inputs) as [input|e] eqn:Hv.
  2:{ rewrite (attempt_invalid inputs e s Hi Hv).
      destruct e; intros [= <- <- <-] []. }
  destruct (v_parse_inv _ _ Hv) as (-> & Hop & _).
  destruct (dry_run inputs) eqn:Hd.
  - rewrite (attempt_run tracker core engine now picklistMessage _ _ s Hi Hv), Hd.
    intros [= <- <- <-] [].
  - intros _ _. exists inputs. auto.
Qed.

(** X11: a configuration that fails validation (an operation outside the
    picklist, or a release date that is not blank and that the Date
    constructor rejects) ends the run at once, dry run or not: a debug line,
    the failure signal with the message of the issue, no request, the
    tracker as it was.  An operation outside the picklist is reported even
    when the date is bad too. *)
Theorem validation_failure_ends_the_run inputs s :
  readInputs core = Normal inputs ->
  inPicklist (operation inputs) = false
  \/ (trim (release_release_date inputs) <> ""
      /\ Date_new engine (release_release_date inputs) = None) ->
  let message :=
    if inPicklist (operation inputs) then "Release date must be a valid date."
    else picklistMessage (operation inputs) in
  run tracker core engine now picklistMessage s
  = ([Debug (Json (DThrown (ErrorObject "ValiError" message)));
      SetFailed message], s, Normal tt).
Proof.
  intros Hi Hbad message.
  assert (Hv : v_parse engine picklistMessage inputs
               = Throw (ErrorObject "ValiError" message)).
  { unfold v_parse, message.
    destruct (inPicklist (operation inputs)); [|reflexivity].
    destruct Hbad as [Hbad|[Ht Hd]]; [discriminate Hbad|].
    unfold releaseDateCheck. rewrite Hd.
    destruct (String.eqb_spec (trim (release_release_date inputs)) "");
      [contradiction | reflexivity]. }
  rewrite run_unfold, (attempt_invalid inputs _ s Hi Hv). reflexivity.
Qed.

(** X12: what validation buys the upsert of a run.  For a configuration
    that passed, the first statement of the upsert finds an empty date
    absent, turns any other date the check has seen into its UTC day, and
    throws only for a date that is not empty but trims to nothing, which the
    check lets through unseen. *)
Theorem validated_date_reaches_the_upsert_parsed inputs :
  v_parse engine picklistMessage inputs = Normal inputs ->
  match normalizeReleaseDate engine (p_releaseDate (versionParams inputs)) with
  | Normal None => release_release_date inputs = ""
  | Normal (Some day) =>
      exists t, Date_new engine (release_release_date inputs) = Some t
                /\ day = dateString t
  | Throw e =>
      release_release_date inputs <> ""
      /\ trim (release_release_date inputs) = ""
      /\ e = ErrorObject "RangeError" "Invalid time value"
  end.
Proof.
  intros Hv. destruct (v_parse_inv _ _ Hv) as (_ & _ & Hc).
  unfold releaseDateCheck in Hc. unfold versionParams. cbn [p_releaseDate].
  destruct (release_release_date inputs) as [|c x] eqn:Hx; [reflexivity|].
  cbn [truthy normalizeReleaseDate].
  destruct (Date_new engine (String c x)) as [t|] eqn:Ht.
  - rewrite isoDay_valid. exists t. auto.
  - cbn. split; [discriminate|]. split; [|reflexivity].
    destruct (String.eqb_spec (trim (String c x)) "") as [E|E]; [exact E|].
    discriminate Hc.
Qed.

Lemma requests_app tr1 tr2 :
  requests (tr1 ++ tr2) = (requests tr1 ++ requests tr2)%list.
Proof. unfold requests. apply flat_map_app. Qed.

Lemma deleteProjectVersionByName_requests client projectKey name s tr s' r :
  deleteProjectVersionByName tracker client projectKey name s = (tr, s', r) ->
  forallb isLookupOrDelete (requests tr) = true.
Proof.
  rewrite deleteProjectVersionByName_run, getProjectVersionByName_run.
  destruct (getProjectVersionsPaginated _ _ _ _ _) as [[page|e] s1].
  - destruct (findByName name page) as [v|];
      [destruct (v_id v) as [i|]; [destruct (truthy i)|]|];
      try (intros [= <- <- <-]; reflexivity).
    destruct (deleteAndReplaceVersion _ _ _ _) as [a s2].
    intros [= <- <- <-]. reflexivity.
  - intros [= <- <- <-]. reflexivity.
Qed.

(** X13: a live delete run sends what [deleteProjectVersionByName] sends
    for the project and the release name of the configuration, through the
    client of its credentials, and leaves the tracker where the delete left
    it: a listing and at most one delete, whatever the tickets, the
    description and the flags are. *)
Theorem delete_run_only_looks_up_and_deletes inputs s tr s' r trd sd rd :
  readInputs core = Normal inputs ->
  v_parse engine picklistMessage inputs = Normal inputs ->
  dry_run inputs = false ->
  operation inputs = "delete" ->
  run tracker core engine now picklistMessage s = (tr, s', r) ->
  deleteProjectVersionByName tracker
    (jiraClient (email inputs) (api_token inputs) (subdomain inputs))
    (jira_project inputs) (release_name inputs) s = (trd, sd, rd) ->
  requests tr = requests trd
  /\ s' = sd
  /\ forallb isLookupOrDelete (requests tr) = true.
Proof.
  intros Hi Hv Hd Ho Hrun Hdel.
  pose proof (deleteProjectVersionByName_requests _ _ _ _ _ _ _ Hdel) as Hshape.
  rewrite run_unfold,
    (attempt_run tracker core engine now picklistMessage _ _ s Hi Hv), Hd, Ho
    in Hrun.
  cbv zeta in Hrun.
  change (String.eqb "delete" "create_or_update") with false in Hrun.
  change (String.eqb "delete" "delete") with true in Hrun.
  cbv iota in Hrun. rewrite Hdel in Hrun.
  destruct rd as [[]|[n m|d|n m w|d w]]; injection Hrun as <- <- <-;
    change (?a :: ?b :: ?l) with ([a; b] ++ l)%list;
    rewrite ?requests_app, ?app_nil_r; cbn [requests flat_map app];
    rewrite ?app_nil_r; auto.
Qed.

End EntryPoint.

Section Credentials.

Context {S : Type}.
Variable tracker : Tracker S.
Variable core : ActionsCore.
Variable engine : string -> option Z.
Variable now : Z.
Variable picklistMessage : string -> string.

Ltac through_step :=
  first
    [ apply emits_bind; [|intros ?]
    | apply emits_emit; exact I
    | apply emits_send; reflexivity
    | apply emits_lift
    | apply emits_ret
    | apply emits_throw
    | match goal with
      | |- emits _ (match ?x with _ => _ end) => destruct x
      | |- emits _ (if ?x then _ else _) => destruct x
      end ].

Lemma getProjectVersionByName_through client projectKey name :
  emits (sentThrough client)
    (getProjectVersionByName tracker client projectKey name).
Proof.
  unfold getProjectVersionByName, core_info, core_debug. repeat through_step.
Qed.

Lemma upsertProjectVersion_through client projectKey params :
  emits (sentThrough client)
    (upsertProjectVersion tracker engine now client projectKey params).
Proof.
  unfold upsertProjectVersion.
  apply emits_bind; [apply emits_lift | intros d].
  apply emits_bind; [apply getProjectVersionByName_through|].
  intros [v|]; [destruct (v_id v) as [i|]; [destruct (truthy i)|]|];
    unfold updateProjectVersion, createProjectVersion, getProjectId,
      core_info, core_debug;
    repeat through_step.
Qed.

Lemma deleteProjectVersionByName_through client projectKey name :
  emits (sentThrough client)
    (deleteProjectVersionByName tracker client projectKey name).
Proof.
  unfold deleteProjectVersionByName, core_info, core_debug.
  apply emits_bind; [apply getProjectVersionByName_through|].
  intros a. repeat through_step.
Qed.

Lemma setVersionOnIssues_through client versionId keys :
  emits (sentThrough client) (setVersionOnIssues tracker client versionId keys).
Proof.
  induction keys as [|k ks IH]; cbn [setVersionOnIssues].
  - apply emits_ret.
  - apply emits_bind; [apply emits_send; reflexivity | intros _; exact IH].
Qed.

(** X14: every request of a run goes through the one client built from
    the email, the token and the subdomain of the inputs, with the host
    [https://<subdomain>.atlassian.net]. *)
Theorem every_request_uses_the_configured_client inputs s tr s' r :
  readInputs core = Normal inputs ->
  run tracker core engine now picklistMessage s = (tr, s', r) ->
  host (jiraClient (email inputs) (api_token inputs) (subdomain inputs))
  = "https://" ++ subdomain inputs ++ ".atlassian.net"
  /\ Forall
       (sentThrough (jiraClient (email inputs) (api_token inputs) (subdomain inputs)))
       tr.
Proof.
  intros Hi Hrun. split; [reflexivity|].
  set (client := jiraClient (email inputs) (api_token inputs) (subdomain inputs)).
  assert (Hatt : emits (sentThrough client)
                   (attempt tracker core engine now picklistMessage)).
  { intros s0 tr0 s0' r0. 
    destruct (v_parse engine picklistMessage inputs) as [input|e] eqn:Hv.
    2:{ rewrite (attempt_invalid tracker core engine now picklistMessage
                   inputs e s0 Hi Hv).
        intros [= <- <- <-]. constructor. }
    rewrite (attempt_run tracker core engine now picklistMessage _ _ s0 Hi Hv).
    destruct (v_parse_inv _ _ _ _ Hv) as (-> & _ & _).
    destruct (dry_run inputs).
    { intros [= <- <- <-]. repeat constructor. }
    cbv zeta. fold client.
    match goal with
    | |- (let (_, _) := ?d s0 in _) = _ -> _ =>
        assert (Hd : emits (sentThrough client) d)
    end.
    { destruct (String.eqb (operation inputs) "create_or_update").
      - unfold createOrUpdate.
        apply emits_bind; [apply upsertProjectVersion_through | intros version].
        destruct (truthy (tickets inputs)).
        + apply setVersionOnIssues_through.
        + apply emits_ret.
      - destruct (String.eqb (operation inputs) "delete").
        + apply deleteProjectVersionByName_through.
        + apply emits_ret. }
    match goal with
    | |- (let (_, _) := ?d s0 in _) = _ -> _ =>
        destruct (d s0) as [[trd sd] rd] eqn:E
    end.
    intros [= <- <- <-].
    constructor; [exact I|]. constructor; [exact I|].
    exact (Hd _ _ _ _ E). }
  rewrite run_unfold in Hrun.
  destruct (attempt tracker core engine now picklistMessage s)
    as [[tr0 s0] [a|[n m|d|n m w|d w]]] eqn:E;
    injection Hrun as <- <- <-;
    pose proof (Hatt _ _ _ _ E) as H0.
  - exact H0.
  - apply Forall_app. split; [exact H0 | repeat constructor].
  - apply Forall_app. split; [exact H0 | repeat constructor].
  - exact H0.
  - exact H0.
Qed.

End Credentials.

Section Tagging.

Context {S : Type}.
Variable tracker : Tracker S.
Variable core : ActionsCore.
Variable engine : string -> option Z.
Variable now : Z.
Variable picklistMessage : string -> string.

Lemma otherRequests_app tr1 tr2 :
  otherRequests (tr1 ++ tr2) = (otherRequests tr1 ++ otherRequests tr2)%list.
Proof. unfold otherRequests. now rewrite requests_app, filter_app. Qed.

Lemma otherRequests_upsert tr :
  Forall (fun e => upsertEvent e = true) tr -> otherRequests tr = requests tr.
Proof.
  induction 1 as [|e tr He _ IH]; [reflexivity|].
  change (e :: tr) with ([e] ++ tr)%list.
  rewrite otherRequests_app, requests_app, IH.
  destruct e as [| | |c []]; try reflexivity; discriminate He.
Qed.

Lemma otherRequests_lookupOrDelete tr :
  forallb isLookupOrDelete (requests tr) = true -> otherRequests tr = requests tr.
Proof.
  unfold otherRequests. induction (requests tr) as [|q l IH]; [reflexivity|].
  cbn [forallb filter]. intros H. apply andb_true_iff in H as [Hq Hl].
  rewrite (IH Hl). destruct q; try reflexivity; discriminate Hq.
Qed.

Lemma setVersionOnIssues_requests client versionId keys s tr s' r :
  setVersionOnIssues tracker client versionId keys s = (tr, s', r) ->
  otherRequests tr = []
  /\ forall q, In q (requests tr) ->
       exists k, In k keys /\ q = SetFixVersion k versionId.
Proof.
  revert s tr. induction keys as [|k ks IH]; intros s tr; cbn [setVersionOnIssues].
  - intros [= <- <- <-]. split; [reflexivity | intros q []].
  - intros H.
    apply bind_inv in H as [(e & H1 & _)|(tr1 & s1 & a & tr2 & H1 & H2 & ->)];
      unfold send in H1;
      destruct (setFixVersion tracker client k versionId s) as [a0 s0];
      injection H1 as <- <- ->.
    + split; [reflexivity|]. intros q [<-|[]]. exists k. split; [now left | reflexivity].
    + destruct (IH _ _ H2) as [Ho Hin].
      rewrite otherRequests_app, requests_app, Ho. split; [reflexivity|].
      intros q [<-|Hq].
      * exists k. split; [now left | reflexivity].
      * destruct (Hin q Hq) as (k' & Hk & ->). exists k'. split; [now right | reflexivity].
Qed.

Lemma Earlier_attempt_run inputs input s :
  readInputs core = Normal inputs ->
  v_parse engine picklistMessage inputs = Normal input ->
  Earlier.attempt tracker core engine now picklistMessage s =
  if dry_run input then
    ([Info (Text "Dry run enabled, dumping config:"); Info (Json (DInputs input))],
     s, Normal tt)
  else
    let client := jiraClient (email input) (api_token input) (subdomain input) in
    let dispatch : M unit :=
      if String.eqb (operation input) "create_or_update" then
        bind (upsertProjectVersion tracker engine now client (jira_project input)
                (versionParams input)) (fun _ => ret tt)
      else if String.eqb (operation input) "delete" then
        deleteProjectVersionByName tracker client (jira_project input)
          (release_name input)
      else ret tt in
    match dispatch s with
    | (tr, s', r) =>
        (Info (Text ("Performing release operation " ++ operation input
                       ++ " on project " ++ jira_project input
                       ++ " for release " ++ release_name input ++ "..."))
           :: Debug (Json (DInputs input)) :: tr, s', r)
    end.
Proof.
  intros Hi Hv. unfold Earlier.attempt. rewrite Hi.
  unfold bind at 1, lift at 1. cbn [app].
  unfold Earlier.perform, createJiraClient. rewrite Hv.
  cbv beta iota delta [bind ret throw lift emit send core_info core_debug
                       core_setFailed].
  destruct (dry_run input); [reflexivity|].
  cbv zeta.
  match goal with
  | |- context [?d s] =>
      match type of d with M unit => destruct (d s) as [[tr s'] r] end
  end.
  reflexivity.
Qed.

Lemma Earlier_run_unfold s :
  Earlier.run tracker core engine now picklistMessage s =
  match Earlier.attempt tracker core engine now picklistMessage s with
  | (tr, s1, Normal a) => (tr, s1, Normal a)
  | (tr, s1, Throw e) =>
      match errorMessage e with
      | Some m => ((tr ++ [SetFailed m])%list, s1, Normal tt)
      | None => (tr, s1, Normal tt)
      end
  end.
Proof.
  unfold Earlier.run, try_catch.
  destruct (Earlier.attempt _ _ _ _ _ s) as [[tr s1] [a|[n m|d|n m w|d w]]];
    cbv beta iota delta [errorMessage ret]; rewrite ?app_nil_r; reflexivity.
Qed.

(** The two [try] blocks, side by side. *)
Lemma attempt_extends_earlier s :
  match attempt tracker core engine now picklistMessage s,
        Earlier.attempt tracker core engine now picklistMessage s with
  | (tr, s1, r), (tr0, s0, r0) =>
      otherRequests tr = requests tr0
      /\ ((forall inputs, readInputs core = Normal inputs ->
                          truthy (tickets inputs) = false) ->
          tr = tr0 /\ s1 = s0 /\ r = r0)
  end.
Proof.
  destruct (readInputs core) as [inputs|e] eqn:Hi.
  2:{ rewrite (attempt_unread tracker core engine now picklistMessage e s Hi).
      unfold Earlier.attempt, bind, lift. rewrite Hi. auto. }
  destruct (v_parse engine picklistMessage inputs) as [input|e] eqn:Hv.
  2:{ rewrite (attempt_invalid tracker core engine now picklistMessage
                 inputs e s Hi Hv).
      unfold Earlier.attempt, Earlier.perform, bind, lift. rewrite Hi, Hv. auto. }
  rewrite (attempt_run tracker core engine now picklistMessage _ _ s Hi Hv),
    (Earlier_attempt_run _ _ s Hi Hv).
  destruct (v_parse_inv _ _ _ _ Hv) as (-> & _ & _).
  destruct (dry_run inputs); [auto|]. cbv zeta.
  set (client := jiraClient (email inputs) (api_token inputs) (subdomain inputs)).
  destruct (String.eqb (operation inputs) "create_or_update").
  - unfold createOrUpdate, bind.
    destruct (upsertProjectVersion tracker engine now client (jira_project inputs)
                (versionParams inputs) s) as [[tr_u s1] [version|e]] eqn:Hu.
    + pose proof (otherRequests_upsert _
                    (upsertProjectVersion_emits _ _ _ _ _ _ _ _ _ _ Hu)) as Hou.
      destruct (truthy (tickets inputs)) eqn:Ht.
      * destruct (setVersionOnIssues tracker client (v_id version)
                    (map trim (split "," (tickets inputs))) s1)
          as [[tr_t s2] rt] eqn:Et.
        destruct (setVersionOnIssues_requests _ _ _ _ _ _ _ Et) as [Hot _].
        unfold ret. split.
        -- change (?a :: ?b :: ?l) with ([a; b] ++ l)%list.
           rewrite !otherRequests_app, !requests_app, Hou, Hot.
           cbn [requests flat_map app]. rewrite ?app_nil_r. reflexivity.
        -- intros Hall. specialize (Hall inputs eq_refl). congruence.
      * unfold ret. split; [|auto].
        change (?a :: ?b :: ?l) with ([a; b] ++ l)%list.
        rewrite !otherRequests_app, !requests_app, Hou.
        cbn [requests flat_map app]. rewrite ?app_nil_r. reflexivity.
    + pose proof (otherRequests_upsert _
                    (upsertProjectVersion_emits _ _ _ _ _ _ _ _ _ _ Hu)) as Hou.
      split; [|auto].
      change (?a :: ?b :: ?l) with ([a; b] ++ l)%list.
      rewrite !otherRequests_app, !requests_app, Hou.
      cbn [requests flat_map app]. rewrite ?app_nil_r. reflexivity.
  - destruct (String.eqb (operation inputs) "delete").
    + destruct (deleteProjectVersionByName tracker client (jira_project inputs)
                  (release_name inputs) s) as [[trd sd] rd] eqn:Ed.
      pose proof (otherRequests_lookupOrDelete _
                    (deleteProjectVersionByName_requests _ _ _ _ _ _ _ _ Ed)) as Hod.
      split; [|auto].
      change (?a :: ?b :: ?l) with ([a; b] ++ l)%list.
      rewrite !otherRequests_app, !requests_app, Hod.
      cbn [requests flat_map app]. rewrite ?app_nil_r. reflexivity.
    + unfold ret. split; [reflexivity | auto].
Qed.

(** X15: the [run] that tags issues extends the [run] before it.  From any
    state of the tracker, the requests of the later run other than tagging
    requests are the requests of the earlier run, in the same order; and when
    the tickets input is empty the two runs leave the tracker in the same
    state. *)
Theorem tagging_run_extends_earlier_run s :
  match run tracker core engine now picklistMessage s,
        Earlier.run tracker core engine now picklistMessage s with
  | (tr, s1, r), (tr0, s0, r0) =>
      otherRequests tr = requests tr0
      /\ ((forall inputs, readInputs core = Normal inputs ->
                          truthy (tickets inputs) = false) ->
          s1 = s0)
  end.
Proof.
  pose proof (attempt_extends_earlier s) as H.
  rewrite run_unfold, Earlier_run_unfold.
  destruct (attempt tracker core engine now picklistMessage s) as [[tr s1] r].
  destruct (Earlier.attempt tracker core engine now picklistMessage s)
    as [[tr0 s0] r0].
  destruct H as [Hreq Hsame].
  destruct r as [[]|[n m|d|n m w|d w]], r0 as [[]|[n0 m0|d0|n0 m0 w0|d0 w0]];
    cbv beta iota delta [errorMessage];
    (split; [rewrite ?otherRequests_app, ?requests_app, Hreq;
             cbn [otherRequests requests flat_map filter app];
             rewrite ?app_nil_r; reflexivity
            | intros Hall; exact (proj1 (proj2 (Hsame Hall)))]).
Qed.

(** X16 (the issue tagger as the spec describes it): a run sends a tagging
    request only in a create_or_update run whose upsert has returned a
    version; the request carries the identifier of that version, and its
    issue key is one of the trimmed pieces of the tickets input, which is
    not empty. *)
Theorem tagging_follows_a_successful_upsert inputs s tr s' r k versionId :
  readInputs core = Normal inputs ->
  run tracker core engine now picklistMessage s = (tr, s', r) ->
  In (SetFixVersion k versionId) (requests tr) ->
  operation inputs = "create_or_update"
  /\ tickets inputs <> ""
  /\ In k (map trim (split "," (tickets inputs)))
  /\ exists tr_u s1 version,
       upsertProjectVersion tracker engine now
         (jiraClient (email inputs) (api_token inputs) (subdomain inputs))
         (jira_project inputs) (versionParams inputs) s
       = (tr_u, s1, Normal version)
       /\ versionId = v_id version.
Proof.
  intros Hi Hrun Hin.
  assert (Htag : In (SetFixVersion k versionId) (tagRequests tr)).
  { unfold tagRequests. apply filter_In. auto. }
  clear Hin. rewrite run_unfold in Hrun.
  destruct (v_parse engine picklistMessage inputs) as [input|e] eqn:Hv.
  2:{ rewrite (attempt_invalid tracker core engine now picklistMessage
                 inputs e s Hi Hv) in Hrun.
      destruct e; injection Hrun as <- <- <-; destruct Htag. }
  rewrite (attempt_run tracker core engine now picklistMessage _ _ s Hi Hv) in Hrun.
  destruct (v_parse_inv _ _ _ _ Hv) as (-> & _ & _).
  destruct (dry_run inputs).
  { injection Hrun as <- <- <-. destruct Htag. }
  cbv zeta in Hrun.
  set (client := jiraClient (email inputs) (api_token inputs) (subdomain inputs)) in *.
  assert (Hcatch : forall (tr0 : list Event) rr (st : S),
            (match rr with
             | Normal a => (tr0, st, Normal a)
             | Throw (ErrorObject n m) =>
                 ((tr0 ++ [Debug (Json (DThrown (ErrorObject n m))); SetFailed m])%list,
                  st, Normal tt)
             | Throw (OtherValue d) =>
                 ((tr0 ++ [Debug (Json (DThrown (OtherValue d)))])%list, st, Normal tt)
             | Throw (UnserialisableError _ _ why) =>
                 (tr0, st, Throw (ErrorObject "TypeError" why))
             | Throw (UnserialisableValue _ why) =>
                 (tr0, st, Throw (ErrorObject "TypeError" why))
             end) = (tr, s', r) -> tagRequests tr = tagRequests tr0).
  { intros tr0 [a|[n m|d|n m w|d w]] st [= <- <- <-];
      rewrite ?tagRequests_app, ?app_nil_r; reflexivity. }
  destruct (String.eqb (operation inputs) "create_or_update") eqn:Ho.
  - apply String.eqb_eq in Ho. split; [exact Ho|].
    unfold createOrUpdate, bind in Hrun.
    destruct (upsertProjectVersion tracker engine now client (jira_project inputs)
                (versionParams inputs) s) as [[tr_u s1] [version|e]] eqn:Hu.
    + pose proof (tagRequests_none _
                    (upsertProjectVersion_emits _ _ _ _ _ _ _ _ _ _ Hu)) as Hnone.
      destruct (truthy (tickets inputs)) eqn:Ht.
      * destruct (setVersionOnIssues tracker client (v_id version)
                    (map trim (split "," (tickets inputs))) s1)
          as [[tr_t s2] rt] eqn:Et.
        rewrite (Hcatch _ _ _ Hrun) in Htag.
        change (?a :: ?b :: ?l) with ([a; b] ++ l)%list in Htag.
        rewrite !tagRequests_app, Hnone in Htag. cbn [app] in Htag.
        change (tagRequests [_; _]) with (@nil Request) in Htag. cbn [app] in Htag.
        apply filter_In in Htag as [Hq _].
        destruct (setVersionOnIssues_requests _ _ _ _ _ _ _ Et) as [_ Hkeys].
        destruct (Hkeys _ Hq) as (k' & Hk & [= -> ->]).
        split; [intros E; rewrite E in Ht; discriminate Ht|].
        split; [exact Hk|]. exists tr_u, s1, version. auto.
      * unfold ret in Hrun. rewrite (Hcatch _ (Normal tt) _ Hrun) in Htag.
        change (?a :: ?b :: ?l) with ([a; b] ++ l)%list in Htag.
        rewrite !tagRequests_app, Hnone in Htag. destruct Htag.
    + pose proof (tagRequests_none _
                    (upsertProjectVersion_emits _ _ _ _ _ _ _ _ _ _ Hu)) as Hnone.
      rewrite (Hcatch _ (Throw e) _ Hrun) in Htag.
      change (?a :: ?b :: ?l) with ([a; b] ++ l)%list in Htag.
      rewrite !tagRequests_app, Hnone in Htag. destruct Htag.
  - exfalso.
    destruct (String.eqb (operation inputs) "delete").
    + destruct (deleteProjectVersionByName tracker client (jira_project inputs)
                  (release_name inputs) s) as [[trd sd] rd] eqn:Ed.
      rewrite (Hcatch _ _ _ Hrun) in Htag.
      pose proof (deleteProjectVersionByName_requests _ _ _ _ _ _ _ _ Ed) as Hd.
      unfold tagRequests in Htag. apply filter_In in Htag as [Hq Ht].
      cbn in Hq.
      rewrite forallb_forall in Hd. specialize (Hd _ Hq). discriminate Hd.
    + unfold ret in Hrun. rewrite (Hcatch _ (Normal tt) _ Hrun) in Htag.
      destruct Htag.
Qed.

End Tagging.

(** ** The further properties on the tracker in memory *)

Lemma upsert_updates_a_found_version_witness :
  usableId (findByName "v1.2.0" {| values := Some (versions nearTracker) |})
  = Some "10003"
  /\ exists tr,
       upsertOn sampleParams nearTracker
       = (tr,
          snd (updateVersion memTracker sampleClient
                 (datedParams true "2024-11-03") "10003" nearTracker),
          Normal (versionOf "10003" (datedParams true "2024-11-03")))
       /\ requests tr
          = [GetProjectVersionsPaginated "AB" "v1.2.0";
             UpdateVersion (datedParams true "2024-11-03") "10003"].
Proof.
  split; [reflexivity|].
  exact (upsert_updates_a_found_version memTracker isoOnly sampleNow sampleClient
           "AB" sampleParams nearTracker None
           {| values := Some (versions nearTracker) |} nearTracker "10003"
           eq_refl eq_refl eq_refl).
Defined.

Lemma upsert_creates_when_nothing_usable_is_found_witness :
  findByName "v1.2.0" {| values := Some (versions idlessTracker) |}
  = Some {| v_id := None; v_name := Some "v1.2.0"; v_description := None;
            v_released := Some false; v_releaseDate := None;
            v_archived := Some false |}
  /\ exists tr,
       upsertOn sampleParams idlessTracker
       = (tr,
          snd (createVersion memTracker sampleClient
                 (datedParams true "2024-11-03") "10000" idlessTracker),
          Normal (versionOf "10002" (datedParams true "2024-11-03")))
       /\ requests tr
          = [GetProjectVersionsPaginated "AB" "v1.2.0"; GetProject "AB";
             CreateVersion (datedParams true "2024-11-03") "10000"].
Proof.
  split; [reflexivity|].
  exact (upsert_creates_when_nothing_usable_is_found memTracker isoOnly sampleNow
           sampleClient "AB" sampleParams idlessTracker None
           {| values := Some (versions idlessTracker) |} idlessTracker
           eq_refl eq_refl eq_refl).
Defined.

Lemma upsert_request_shapes_witness :
  let tr := traceOf (upsertOn sampleParams emptyTracker) in
  let r := snd (upsertOn sampleParams emptyTracker) in
  let listing := GetProjectVersionsPaginated "AB" "v1.2.0" in
  (requests tr = [] /\ r = Throw (ErrorObject "RangeError" "Invalid time value"))
  \/ (requests tr = [listing] /\ exists e, r = Throw e)
  \/ (exists p i, requests tr = [listing; UpdateVersion p i])
  \/ (requests tr = [listing; GetProject "AB"] /\ exists e, r = Throw e)
  \/ (exists p projectId,
        requests tr = [listing; GetProject "AB"; CreateVersion p projectId]).
Proof.
  exact (upsert_request_shapes memTracker isoOnly sampleNow sampleClient "AB"
           sampleParams emptyTracker
           (traceOf (upsertOn sampleParams emptyTracker))
           (snd (fst (upsertOn sampleParams emptyTracker)))
           (snd (upsertOn sampleParams emptyTracker)) eq_refl).
Defined.

Lemma released_payload_keeps_supplied_day_witness :
  Date_new isoOnly "+002024-02-29" = Some 1709164800000
  /\ Forall (fun p => p_releaseDate p = Some "2024-02-29")
       (upsertPayloads
          (traceOf (upsertOn (datedParams true "+002024-02-29") nearTracker))).
Proof.
  split; [reflexivity|].
  exact (proj1
           (released_payload_keeps_supplied_day memTracker isoOnly sampleNow
              sampleClient "AB" (datedParams true "+002024-02-29")
              "+002024-02-29" 1709164800000 nearTracker
              (traceOf (upsertOn (datedParams true "+002024-02-29") nearTracker))
              (snd (fst (upsertOn (datedParams true "+002024-02-29") nearTracker)))
              (snd (upsertOn (datedParams true "+002024-02-29") nearTracker))
              eq_refl eq_refl eq_refl eq_refl eq_refl)).
Defined.

Lemma listing_failure_propagates_witness :
  getProjectVersionsPaginated memTracker sampleClient "AB" "v1.2.0" downTracker
  = (Throw (OtherValue "status 401"), downTracker)
  /\ exists tr,
       deleteProjectVersionByName memTracker sampleClient "AB" "v1.2.0" downTracker
       = (tr, downTracker, Throw (OtherValue "status 401"))
       /\ requests tr = [GetProjectVersionsPaginated "AB" "v1.2.0"].
Proof.
  split; [reflexivity|].
  exact (proj1 (proj2
           (listing_failure_propagates memTracker isoOnly sampleNow sampleClient
              "AB" sampleParams downTracker (OtherValue "status 401") downTracker
              eq_refl))).
Defined.

Lemma delete_goes_by_usable_id_witness :
  usableId (findByName "v1.2.0" {| values := Some (versions idlessTracker) |}) = None
  /\ exists tr,
       deleteProjectVersionByName memTracker sampleClient "AB" "v1.2.0" idlessTracker
       = (tr, idlessTracker, Throw (ErrorObject "Error" "Version v1.2.0 not found"))
       /\ requests tr = [GetProjectVersionsPaginated "AB" "v1.2.0"].
Proof.
  split; [reflexivity|].
  exact (delete_goes_by_usable_id memTracker sampleClient "AB" "v1.2.0"
           idlessTracker {| values := Some (versions idlessTracker) |}
           idlessTracker eq_refl).
Defined.

Lemma requests_need_a_valid_live_configuration_witness :
  In (GetProject "AB") (requests (traceOf (runOn sampleConfig emptyTracker)))
  /\ exists inputs,
       readInputs (coreOf sampleConfig) = Normal inputs
       /\ v_parse isoOnly plainMessage inputs = Normal inputs
       /\ dry_run inputs = false
       /\ (operation inputs = "create_or_update" \/ operation inputs = "delete").
Proof.
  assert (H : In (GetProject "AB")
                (requests (traceOf (runOn sampleConfig emptyTracker))))
    by (vm_compute; right; left; reflexivity).
  split; [exact H|].
  assert (E : run memTracker (coreOf sampleConfig) isoOnly sampleNow plainMessage
                emptyTracker
              = (traceOf (runOn sampleConfig emptyTracker),
                 snd (fst (runOn sampleConfig emptyTracker)),
                 snd (runOn sampleConfig emptyTracker)))
    by (vm_compute; reflexivity).
  exact (requests_need_a_valid_live_configuration memTracker (coreOf sampleConfig)
           isoOnly sampleNow plainMessage emptyTracker _ _ _
           (GetProject "AB") E H).
Defined.

Lemma validation_failure_ends_the_run_witness :
  trim "not-a-date" <> ""
  /\ Date_new isoOnly "not-a-date" = None
  /\ runOn (dryRun (withDate sampleConfig "not-a-date")) nearTracker
     = ([Debug (Json (DThrown (ErrorObject "ValiError"
                                 "Release date must be a valid date.")));
         SetFailed "Release date must be a valid date."], nearTracker, Normal tt)
  /\ runOn (withOperation (withDate sampleConfig "not-a-date") "archive") nearTracker
     = ([Debug (Json (DThrown (ErrorObject "ValiError"
                                 "Invalid type: received archive")));
         SetFailed "Invalid type: received archive"], nearTracker, Normal tt).
Proof.
  assert (Ht : trim "not-a-date" <> "") by discriminate.
  split; [exact Ht|]. split; [reflexivity|]. split.
  - exact (validation_failure_ends_the_run memTracker
             (coreOf (dryRun (withDate sampleConfig "not-a-date"))) isoOnly
             sampleNow plainMessage (dryRun (withDate sampleConfig "not-a-date"))
             nearTracker eq_refl (or_intror (conj Ht eq_refl))).
  - exact (validation_failure_ends_the_run memTracker
             (coreOf (withOperation (withDate sampleConfig "not-a-date") "archive"))
             isoOnly sampleNow plainMessage
             (withOperation (withDate sampleConfig "not-a-date") "archive")
             nearTracker eq_refl (or_introl eq_refl)).
Defined.

Lemma validated_date_reaches_the_upsert_parsed_witness :
  v_parse isoOnly plainMessage (withDate sampleConfig "+002024-02-29")
  = Normal (withDate sampleConfig "+002024-02-29")
  /\ normalizeReleaseDate isoOnly
       (p_releaseDate (versionParams (withDate sampleConfig "+002024-02-29")))
     = Normal (Some "2024-02-29")
  /\ exists t, Date_new isoOnly "+002024-02-29" = Some t
               /\ "2024-02-29" = dateString t.
Proof.
  split; [reflexivity|]. split; [reflexivity|].
  exact (validated_date_reaches_the_upsert_parsed isoOnly plainMessage
           (withDate sampleConfig "+002024-02-29") eq_refl).
Defined.

Lemma delete_run_only_looks_up_and_deletes_witness :
  requests (traceOf (runOn (withOperation sampleConfig "delete") nearTracker))
  = [GetProjectVersionsPaginated "AB" "v1.2.0"; DeleteAndReplaceVersion "10003"]
  /\ requests (traceOf (runOn (withOperation sampleConfig "delete") nearTracker))
     = requests
         (traceOf (deleteProjectVersionByName memTracker sampleClient "AB" "v1.2.0"
                     nearTracker))
  /\ forallb isLookupOrDelete
       (requests (traceOf (runOn (withOperation sampleConfig "delete") nearTracker)))
     = true.
Proof.
  split; [reflexivity|].
  pose (H := delete_run_only_looks_up_and_deletes memTracker
               (coreOf (withOperation sampleConfig "delete")) isoOnly sampleNow
               plainMessage (withOperation sampleConfig "delete") nearTracker
               (traceOf (runOn (withOperation sampleConfig "delete") nearTracker))
               (snd (fst (runOn (withOperation sampleConfig "delete") nearTracker)))
               (snd (runOn (withOperation sampleConfig "delete") nearTracker))
               (traceOf (deleteProjectVersionByName memTracker sampleClient "AB"
                           "v1.2.0" nearTracker))
               (snd (fst (deleteProjectVersionByName memTracker sampleClient "AB"
                            "v1.2.0" nearTracker)))
               (snd (deleteProjectVersionByName memTracker sampleClient "AB"
                       "v1.2.0" nearTracker))
               eq_refl eq_refl eq_refl eq_refl eq_refl eq_refl).
  split; [exact (proj1 H) | exact (proj2 (proj2 H))].
Defined.

Lemma every_request_uses_the_configured_client_witness :
  jiraClient (email sampleConfig) (api_token sampleConfig) (subdomain sampleConfig)
  = sampleClient
  /\ Forall (sentThrough sampleClient) (traceOf (runOn sampleConfig emptyTracker)).
Proof.
  split; [reflexivity|].
  exact (proj2
           (every_request_uses_the_configured_client memTracker
              (coreOf sampleConfig) isoOnly sampleNow plainMessage sampleConfig
              emptyTracker
              (traceOf (runOn sampleConfig emptyTracker))
              (snd (fst (runOn sampleConfig emptyTracker)))
              (snd (runOn sampleConfig emptyTracker))
              eq_refl eq_refl)).
Defined.

(** The earlier run and the run that tags, on the same project. *)
Example earlier_run_sends_the_same_upsert :
  requests (traceOf (Earlier.run memTracker (coreOf sampleConfig) isoOnly sampleNow
                       plainMessage emptyTracker))
  = [GetProjectVersionsPaginated "AB" "v1.2.0"; GetProject "AB";
     CreateVersion (datedParams true "2024-11-03") "10000"]
  /\ otherRequests (traceOf (runOn sampleConfig emptyTracker))
     = [GetProjectVersionsPaginated "AB" "v1.2.0"; GetProject "AB";
        CreateVersion (datedParams true "2024-11-03") "10000"].
Proof. split; reflexivity. Qed.

Lemma tagging_follows_a_successful_upsert_witness :
  In (SetFixVersion "AB-2" (Some "10001"))
    (requests (traceOf (runOn sampleConfig emptyTracker)))
  /\ operation sampleConfig = "create_or_update"
  /\ tickets sampleConfig <> ""
  /\ In "AB-2" (map trim (split "," (tickets sampleConfig)))
  /\ exists tr_u s1 version,
       upsertOn (versionParams sampleConfig) emptyTracker
       = (tr_u, s1, Normal version)
       /\ Some "10001" = v_id version.
Proof.
  assert (H : In (SetFixVersion "AB-2" (Some "10001"))
                (requests (traceOf (runOn sampleConfig emptyTracker))))
    by (vm_compute; do 4 right; left; reflexivity).
  split; [exact H|].
  assert (E : run memTracker (coreOf sampleConfig) isoOnly sampleNow plainMessage
                emptyTracker
              = (traceOf (runOn sampleConfig emptyTracker),
                 snd (fst (runOn sampleConfig emptyTracker)),
                 snd (runOn sampleConfig emptyTracker)))
    by (vm_compute; reflexivity).
  exact (tagging_follows_a_successful_upsert memTracker (coreOf sampleConfig)
           isoOnly sampleNow plainMessage sampleConfig emptyTracker _ _ _
           "AB-2" (Some "10001") eq_refl E H).
Defined.
